(** * DateRangePicker: a two-click date-range picker

    Shallow embedding of [src/DateRangePicker.tsx] and the properties of its
    click handler, clear handler, day renderer and text field.

    The component is a React function component.  Its props and hook state
    become a record; the handlers, which only call setters and the change
    callback, become functions returning the list of calls they make, in
    order; a small interpreter applies the calls for a controlled parent
    that hands every reported pair back as the next [value] prop. *)

From Stdlib Require Import ZArith List Bool String Ascii Lia.
From Stdlib Require Import Numbers.DecimalString.
Import ListNotations.

Local Open Scope Z_scope.

(** ** The dayjs values the component manipulates

    The component receives [Dayjs] objects and only ever compares them,
    asks for their week day and formats them.  A valid [Dayjs] is modelled
    by its [valueOf()], the number of milliseconds since the epoch, read on
    the local wall clock (a fixed zone offset shifts every value alike and
    changes no comparison).  A [Dayjs | null] is an [option Dayjs]; objects
    are truthy in JavaScript and [null] and [undefined] are falsy. *)
Module Dayjs.

Record t : Type := mk { valueOf : Z }.

Definition MILLISECONDS_A_DAY : Z := 86400000.

(** [a.isAfter(b)] and [a.isBefore(b)] without a unit compare instants. *)
Definition isAfter (a b : t) : bool := valueOf b <? valueOf a.
Definition isBefore (a b : t) : bool := valueOf a <? valueOf b.

(** Number of the calendar day an instant falls on, counted from the epoch. *)
Definition dayNumber (a : t) : Z := valueOf a / MILLISECONDS_A_DAY.

Definition startOfDay (a : t) : t := mk (dayNumber a * MILLISECONDS_A_DAY).
Definition endOfDay (a : t) : t :=
  mk (dayNumber a * MILLISECONDS_A_DAY + (MILLISECONDS_A_DAY - 1)).

(** [a.isSame(b, 'day')]: [a.startOf('day') <= b && b <= a.endOf('day')]. *)
Definition isSameDay (a b : t) : bool :=
  (valueOf (startOfDay a) <=? valueOf b) && (valueOf b <=? valueOf (endOfDay a)).

(** [a.isBetween(x, y, null, '[]')] of the isBetween plugin: both ends are
    inclusive, no unit is given, and either order of the ends is accepted. *)
Definition isBetween (a x y : t) : bool :=
  (negb (isBefore a x) && negb (isAfter a y))
  || (negb (isAfter a x) && negb (isBefore a y)).

(** [a.day()]: the day of the week, 0 for Sunday to 6 for Saturday.  The
    epoch fell on a Thursday. *)
Definition day (a : t) : Z := (dayNumber a + 4) mod 7.

(** Civil date of a day number (proleptic Gregorian calendar), the fields
    [$y], [$M] (0 to 11) and [$D] (1 to 31) of a dayjs object. *)
Definition civil (n : Z) : Z * Z * Z :=
  let z := n + 719468 in
  let era := z / 146097 in
  let doe := z - era * 146097 in
  let yoe := (doe - doe / 1460 + doe / 36524 - doe / 146096) / 365 in
  let doy := doe - (365 * yoe + yoe / 4 - yoe / 100) in
  let mp := (5 * doy + 2) / 153 in
  let d := doy - (153 * mp + 2) / 5 + 1 in
  let m := if mp <? 10 then mp + 3 else mp - 9 in
  let y := yoe + era * 400 + (if m <=? 2 then 1 else 0) in
  (y, m - 1, d).

Definition year (a : t) : Z := fst (fst (civil (dayNumber a))).
Definition month (a : t) : Z := snd (fst (civil (dayNumber a))).
Definition date (a : t) : Z := snd (civil (dayNumber a)).

(** JavaScript's [String(n)] for an integer. *)
Definition String_of (n : Z) : string := NilZero.string_of_int (Z.to_int n).

Fixpoint repeat_string (pad : string) (k : nat) : string :=
  match k with
  | O => EmptyString
  | S k' => (pad ++ repeat_string pad k')%string
  end.

(** dayjs's [padStart(string, length, pad)]. *)
Definition padStart (s : string) (len : nat) (pad : string) : string :=
  if (len <=? String.length s)%nat then s
  else (repeat_string pad (len - String.length s) ++ s)%string.

(** The English month names of the default locale. *)
Definition months : list string :=
  ["January"; "February"; "March"; "April"; "May"; "June"; "July";
   "August"; "September"; "October"; "November"; "December"]%string.

(** [MMM]: the first three letters of the month name. *)
Definition monthShort (m : Z) : string :=
  substring 0 3 (nth (Z.to_nat m) months EmptyString).

(** [a.format('D MMM YYYY')]. *)
Definition format_D_MMM_YYYY (a : t) : string :=
  (String_of (date a) ++ " " ++ monthShort (month a) ++ " "
   ++ padStart (String_of (year a)) 4 "0")%string.

(** The instant at local midnight of a civil date (month 1 to 12), the
    inverse of [civil] used to write dates down. *)
Definition daysFromCivil (y m d : Z) : Z :=
  let y' := if m <=? 2 then y - 1 else y in
  let era := y' / 400 in
  let yoe := y' - era * 400 in
  let mp := if 2 <? m then m - 3 else m + 9 in
  let doy := (153 * mp + 2) / 5 + d - 1 in
  let doe := yoe * 365 + yoe / 4 - yoe / 100 + doy in
  era * 146097 + doe - 719468.

Definition ofDate (y m d : Z) : t := mk (daysFromCivil y m d * MILLISECONDS_A_DAY).

End Dayjs.

Abbreviation Dayjs := Dayjs.t.

(** [x || y] on [Dayjs | null] operands. *)
Definition or_else (x y : option Dayjs) : option Dayjs :=
  match x with
  | Some d => Some d
  | None => y
  end.

(** Truthiness of a [Dayjs | null]. *)
Definition truthy (x : option Dayjs) : bool :=
  match x with
  | Some _ => true
  | None => false
  end.

(** ** DateRangePicker: props, hook state and handlers *)

(** The [value] prop and the argument of [onChange]: an array of
    [Dayjs | null].  Reading past its end gives [undefined], which
    [value[i] || null] turns into [null]. *)
Definition RangeValue : Type := list (option Dayjs).

Definition slot (value : RangeValue) (i : nat) : option Dayjs :=
  match nth_error value i with
  | Some (Some d) => Some d
  | _ => None
  end.

(** A call made by a handler: one of the two state setters or the
    [onChange] callback (through [updateValue]). *)
Inductive Call : Type :=
| SetPickerValue (v : option Dayjs)
| UpdateValue (newVal : RangeValue)
| SetStartTurn (b : bool).

(** What a render of [DateRangePicker] sees: the [value] prop, the two
    pieces of hook state, and (for the proofs) the arguments [onChange] has
    been called with so far, oldest first. *)
Record Widget : Type := mkWidget {
  value : RangeValue;
  startTurn : bool;
  pickerValue : option Dayjs;
  reported : list RangeValue
}.

Definition startDay (w : Widget) : option Dayjs := slot (value w) 0.
Definition endDay (w : Widget) : option Dayjs := slot (value w) 1.

(** [handleChange], closed over the render [w]. *)
Definition handleChange (w : Widget) (newValue : option Dayjs) : list Call :=
  match newValue with
  | None => []
  | Some d =>
      SetPickerValue (Some d) ::
      (if startTurn w then
         let isReverse :=
           match endDay w with
           | Some e => Dayjs.isAfter d e
           | None => false
           end in
         (if isReverse
          then [UpdateValue [Some d; None]]
          else [UpdateValue [Some d; endDay w]])
         ++ [SetStartTurn false]
       else
         let isReverse :=
           match startDay w with
           | Some s => Dayjs.isBefore d s
           | None => false
           end in
         if isReverse
         then [UpdateValue [Some d; startDay w]; SetStartTurn false]
         else [UpdateValue [startDay w; Some d]; SetStartTurn true])
  end.

(** [handleClear]. *)
Definition handleClear (w : Widget) : list Call :=
  [UpdateValue [None; None]; SetPickerValue None; SetStartTurn true].

(** One call applied: a setter replaces its piece of state; [onChange] is
    recorded and, the parent being controlled, its argument becomes the
    next [value] prop. *)
Definition apply_call (w : Widget) (c : Call) : Widget :=
  match c with
  | SetPickerValue v => mkWidget (value w) (startTurn w) v (reported w)
  | UpdateValue p => mkWidget p (startTurn w) (pickerValue w) (reported w ++ [p])
  | SetStartTurn b => mkWidget (value w) b (pickerValue w) (reported w)
  end.

Definition apply_calls (w : Widget) (cs : list Call) : Widget :=
  fold_left apply_call cs w.

(** The dependencies of the [useEffect]: [[startDay, endDay, startTurn]].
    React compares them with [Object.is]; on the values handled here (a
    handler passes a stored date on as the same object, and a clicked date
    that differs in no dependency from the previous render does not occur
    together with an unchanged turn flag, see [click_changes_deps]) this is
    equality of the instants. *)
Definition same_date (x y : option Dayjs) : bool :=
  match x, y with
  | Some a, Some b => Dayjs.valueOf a =? Dayjs.valueOf b
  | None, None => true
  | _, _ => false
  end.

Definition same_deps (prev next : Widget) : bool :=
  same_date (startDay prev) (startDay next)
  && same_date (endDay prev) (endDay next)
  && Bool.eqb (startTurn prev) (startTurn next).

(** The effect body, [setPickerValue(startTurn ? startDay : endDay)]. *)
Definition effect_calls (w : Widget) : list Call :=
  [SetPickerValue (if startTurn w then startDay w else endDay w)].

(** The render that follows an event: the effect runs when a dependency
    differs from the previous render's. *)
Definition rerender (prev next : Widget) : Widget :=
  if same_deps prev next then next
  else apply_calls next (effect_calls next).

(** The user's two gestures: a click on the calendar, which the picker
    turns into [onChange(newValue)], and a click on the clear button. *)
Inductive Event : Type :=
| Click (newValue : option Dayjs)
| Clear.

Definition handler (w : Widget) (ev : Event) : list Call :=
  match ev with
  | Click newValue => handleChange w newValue
  | Clear => handleClear w
  end.

(** The widget when the handler returns, and after the render it causes. *)
Definition handled (w : Widget) (ev : Event) : Widget :=
  apply_calls w (handler w ev).

Definition step (w : Widget) (ev : Event) : Widget :=
  rerender w (handled w ev).

(** First render: [useState(true)], [useState(startDay || null)], then the
    effect of the mount, which stores [startDay] again. *)
Definition mount (v : RangeValue) : Widget :=
  let w := mkWidget v true (slot v 0) [] in
  apply_calls w (effect_calls w).

Definition initial : Widget := mount [None; None].

Definition run (w : Widget) (evs : list Event) : Widget :=
  fold_left step evs w.

(** States the widget reaches from the empty selection. *)
Inductive reachable : Widget -> Prop :=
| reachable_initial : reachable initial
| reachable_step (w : Widget) (ev : Event) :
    reachable w -> reachable (step w ev).

(** The selection of a render as the pair (start, end). *)
Definition selection (w : Widget) : option Dayjs * option Dayjs :=
  (startDay w, endDay w).

(** ** The day renderer *)

Inductive Colour : Type :=
| Hex_eee                (* '#eee' *)
| PaletteCommonWhite     (* theme.palette.common.white *)
| PalettePrimaryMain     (* theme.palette.primary.main *)
| PalettePrimaryDark.    (* theme.palette.primary.dark *)

(** The style object of the [div] that wraps a day; an absent key is
    [None]. *)
Record DivStyle : Type := mkDivStyle {
  backgroundColor : option Colour;
  borderTopLeftRadius : option string;
  borderBottomLeftRadius : option string;
  borderTopRightRadius : option string;
  borderBottomRightRadius : option string
}.

(** The props [Day] passes to [CustomPickersDay]. *)
Record CustomPickerDayProps : Type := mkCustomPickerDayProps {
  day : Dayjs;
  sx_padded : bool;       (* sx = { px: 2.5, mx: 0 } rather than {} *)
  dayIsBetween : bool;
  isFirstDay : bool;
  isLastDay : bool
}.

(** The style [CustomPickersDay] computes from its props. *)
Record PickersDayStyle : Type := mkPickersDayStyle {
  borderRadius : string;
  hover : Colour * Colour;             (* color, backgroundColor *)
  focus : option (Colour * Colour);    (* color, backgroundColor *)
  color : option Colour;
  dayBackgroundColor : option Colour
}.

Definition CustomPickersDay (p : CustomPickerDayProps) : PickersDayStyle :=
  mkPickersDayStyle "50%"
    (PaletteCommonWhite, PalettePrimaryDark)
    (if dayIsBetween p then Some (PaletteCommonWhite, PalettePrimaryDark) else None)
    (if isFirstDay p || isLastDay p then Some PaletteCommonWhite else None)
    (if isFirstDay p || isLastDay p then Some PalettePrimaryMain else None).

Inductive DayElement : Type :=
| PlainPickersDay (d : Dayjs)
| RangeDay (style : DivStyle) (inner : CustomPickerDayProps).

(** [Day], on the props it reads: [day], [startDay] and [endDay]. *)
Definition Day (d : Dayjs) (startDay endDay : option Dayjs) : DayElement :=
  if negb (truthy startDay) && negb (truthy endDay) then PlainPickersDay d
  else
    match or_else startDay endDay, or_else endDay startDay with
    | Some start, Some end_ =>
        let dayIsBetween := Dayjs.isBetween d start end_ in
        let isFirstDay := Dayjs.isSameDay d start in
        let isSunday := Dayjs.day d =? 0 in
        let isSaturday := Dayjs.day d =? 6 in
        let isLastDay := Dayjs.isSameDay d end_ in
        RangeDay
          (mkDivStyle
             (if dayIsBetween then Some Hex_eee else None)
             (if isFirstDay || isSunday then Some "50%"%string else None)
             (if isFirstDay || isSunday then Some "50%"%string else None)
             (if isLastDay || isSaturday then Some "50%"%string else None)
             (if isLastDay || isSaturday then Some "50%"%string else None))
          (mkCustomPickerDayProps d dayIsBetween dayIsBetween isFirstDay isLastDay)
    | _, _ => PlainPickersDay d
    end.

(** Observations on a rendered day. *)
Definition inRangeStyled (el : DayElement) : bool :=
  match el with
  | RangeDay st _ =>
      match backgroundColor st with Some Hex_eee => true | _ => false end
  | PlainPickersDay _ => false
  end.

Definition markedFirst (el : DayElement) : bool :=
  match el with
  | RangeDay _ p => isFirstDay p
  | PlainPickersDay _ => false
  end.

Definition markedLast (el : DayElement) : bool :=
  match el with
  | RangeDay _ p => isLastDay p
  | PlainPickersDay _ => false
  end.

Definition endpointHighlighted (el : DayElement) : bool :=
  match el with
  | RangeDay _ p =>
      match color (CustomPickersDay p), dayBackgroundColor (CustomPickersDay p) with
      | Some PaletteCommonWhite, Some PalettePrimaryMain => true
      | _, _ => false
      end
  | PlainPickersDay _ => false
  end.

Definition roundedLeft (el : DayElement) : bool :=
  match el with
  | RangeDay st _ =>
      match borderTopLeftRadius st, borderBottomLeftRadius st with
      | Some _, Some _ => true
      | _, _ => false
      end
  | PlainPickersDay _ => false
  end.

Definition roundedRight (el : DayElement) : bool :=
  match el with
  | RangeDay st _ =>
      match borderTopRightRadius st, borderBottomRightRadius st with
      | Some _, Some _ => true
      | _, _ => false
      end
  | PlainPickersDay _ => false
  end.

(** ** The text field *)

(** What [CustomTextField] hands to [TextField], on the props it computes. *)
Record TextFieldProps : Type := mkTextFieldProps {
  tf_error : bool;
  helperText : option string;
  placeholder : string;
  tf_value : string;
  clearButton : bool       (* hasDateSelected: the clear adornment is drawn *)
}.

Definition CustomTextField (error : option string) (startDay endDay : option Dayjs)
  : TextFieldProps :=
  let hasDateSelected := truthy (or_else startDay endDay) in
  let nonempty := match error with
                  | Some EmptyString | None => false
                  | Some _ => true
                  end in
  mkTextFieldProps
    nonempty
    (match error with
     | None => None
     | Some e => if nonempty then Some ("* " ++ e)%string else Some e
     end)
    "Start - End"
    ((match startDay with
      | Some s => Dayjs.format_D_MMM_YYYY s
      | None => "Start"
      end) ++ " - " ++
     (match endDay with
      | Some e => Dayjs.format_D_MMM_YYYY e
      | None => "End"
      end))%string
    hasDateSelected.

(** ** The range as the specification words it

    The two bounds of a selection with at least one endpoint: the earlier
    and the later of the two dates, a lone endpoint being both. *)
Definition earlier (a b : Dayjs) : Dayjs :=
  if Dayjs.valueOf a <=? Dayjs.valueOf b then a else b.

Definition later (a b : Dayjs) : Dayjs :=
  if Dayjs.valueOf a <=? Dayjs.valueOf b then b else a.

Definition range_bounds (s e : option Dayjs) : option (Dayjs * Dayjs) :=
  match s, e with
  | Some a, Some b => Some (earlier a b, later a b)
  | Some a, None => Some (a, a)
  | None, Some b => Some (b, b)
  | None, None => None
  end.

(** The selection of a render is ordered: its start is at or before its
    end when both are present. *)
Definition ordered (w : Widget) : Prop :=
  forall s e, startDay w = Some s -> endDay w = Some e ->
              Dayjs.valueOf s <= Dayjs.valueOf e.

(** The start of a selection does not fall on a later calendar day than
    its end. *)
Definition start_day_not_after_end (s e : option Dayjs) : Prop :=
  match s, e with
  | Some a, Some b => Dayjs.dayNumber a <= Dayjs.dayNumber b
  | _, _ => True
  end.

(** The marking of the endpoints as the specification words it: a day is
    marked first exactly when it is the calendar day of the earlier bound,
    last exactly when it is the calendar day of the later bound, and the
    days so marked get the endpoint highlight. *)
Definition endpoints_by_order (d : Dayjs) (s e : option Dayjs) : Prop :=
  forall lo hi, range_bounds s e = Some (lo, hi) ->
    (markedFirst (Day d s e) = true <-> Dayjs.dayNumber d = Dayjs.dayNumber lo)
    /\ (markedLast (Day d s e) = true <-> Dayjs.dayNumber d = Dayjs.dayNumber hi)
    /\ (endpointHighlighted (Day d s e) = true
        <-> markedFirst (Day d s e) = true \/ markedLast (Day d s e) = true).

(** A date that carries no time of day: the instant of its local midnight. *)
Definition atMidnight (a : Dayjs) : Prop :=
  Dayjs.valueOf (Dayjs.startOfDay a) = Dayjs.valueOf a.

(** The date the effect puts the picker on: the start on the start turn,
    the end on the end turn. *)
Definition turnTarget (w : Widget) : option Dayjs :=
  if startTurn w then startDay w else endDay w.

(** Events whose handler does something: all but the click without a date. *)
Definition effective (ev : Event) : bool :=
  match ev with
  | Click None => false
  | _ => true
  end.

(** The same render with [r] put in front of the log of [onChange] calls;
    no handler reads the log. *)
Definition relog (r : list RangeValue) (w : Widget) : Widget :=
  mkWidget (value w) (startTurn w) (pickerValue w) (r ++ reported w).


(** Clicks on the dates of a list, one after the other. *)
Definition clicks (l : list Dayjs) : list Event :=
  map (fun d => Click (Some d)) l.

(** Each date of the list is strictly before the one in front of it, the
    first strictly before [s]. *)
Fixpoint descending (s : Dayjs) (l : list Dayjs) : Prop :=
  match l with
  | [] => True
  | d :: l' => Dayjs.valueOf d < Dayjs.valueOf s /\ descending d l'
  end.

(** ** The calendar and the pattern D MMM YYYY as the specification words them

    A civil date is a year, a month from 1 to 12 and a day of that month;
    1 January 1970 is day number 0 and every date is followed by the next
    day number ([epoch_day], [next_civil_day]).  An instant is on a civil
    date when its day number is that of the date. *)
Definition isLeapYear (y : Z) : bool :=
  ((y mod 4 =? 0) && negb (y mod 100 =? 0)) || (y mod 400 =? 0).

Definition daysInMonth (y m : Z) : Z :=
  if m =? 2 then (if isLeapYear y then 29 else 28)
  else if (m =? 4) || (m =? 6) || (m =? 9) || (m =? 11) then 30
  else 31.

Definition validCivil (y m d : Z) : Prop :=
  1 <= m <= 12 /\ 1 <= d <= daysInMonth y m.

Definition nextCivil (y m d : Z) : Z * Z * Z :=
  if d <? daysInMonth y m then (y, m, d + 1)
  else if m <? 12 then (y, m + 1, 1)
  else (y + 1, 1, 1).

Definition prevCivil (y m d : Z) : Z * Z * Z :=
  if 1 <? d then (y, m, d - 1)
  else if 1 <? m then (y, m - 1, daysInMonth y (m - 1))
  else (y - 1, 12, 31).

Definition onCivilDate (a : Dayjs) (y m d : Z) : Prop :=
  validCivil y m d /\ Dayjs.dayNumber a = Dayjs.daysFromCivil y m d.

(** The decimal digit of a number from 0 to 9. *)
Definition digit (k : Z) : ascii :=
  match k with
  | 0 => "0" | 1 => "1" | 2 => "2" | 3 => "3" | 4 => "4"
  | 5 => "5" | 6 => "6" | 7 => "7" | 8 => "8" | _ => "9"
  end%char.

(** D: the day of the month, one digit or two, without padding. *)
Definition dayText (d : Z) : string :=
  if d <? 10 then String (digit d) EmptyString
  else String (digit (d / 10)) (String (digit (d mod 10)) EmptyString).

(** MMM: the English abbreviation of the month. *)
Definition monthText (m : Z) : string :=
  nth (Z.to_nat (m - 1))
    ["Jan"; "Feb"; "Mar"; "Apr"; "May"; "Jun";
     "Jul"; "Aug"; "Sep"; "Oct"; "Nov"; "Dec"]%string EmptyString.

(** YYYY: the year in four digits, with zeros in front of a year below
    1000. *)
Definition yearText (y : Z) : string :=
  String (digit (y / 1000)) (String (digit (y / 100 mod 10))
    (String (digit (y / 10 mod 10)) (String (digit (y mod 10)) EmptyString))).

Definition D_MMM_YYYY (y m d : Z) : string :=
  (dayText d ++ " " ++ monthText m ++ " " ++ yearText y)%string.

(** The last year that four digits write. *)
Definition MAX_YEAR : Z := 9999.

(** A slot of the selection and the civil date it is on, if any, in a year
    that four digits write. *)
Definition slotOnDate (x : option Dayjs) (c : option (Z * Z * Z)) : Prop :=
  match x, c with
  | None, None => True
  | Some a, Some (y, m, d) => onCivilDate a y m d /\ 0 <= y <= MAX_YEAR
  | _, _ => False
  end.

(** What the field shows for a slot: the date in the pattern, or the word
    that stands for a missing date. *)
Definition shown (word : string) (c : option (Z * Z * Z)) : string :=
  match c with
  | Some (y, m, d) => D_MMM_YYYY y m d
  | None => word
  end.

(** The calendar of one cycle of 400 years, on which the conversions are
    checked case by case: the day of the cycle of a date, and the date of a
    day of the cycle number [era]. *)
Definition doeOf (yoe m d : Z) : Z :=
  let mp := if 2 <? m then m - 3 else m + 9 in
  let doy := (153 * mp + 2) / 5 + d - 1 in
  yoe * 365 + yoe / 4 - yoe / 100 + doy.

Definition civilCore (era doe : Z) : Z * Z * Z :=
  let yoe := (doe - doe / 1460 + doe / 36524 - doe / 146096) / 365 in
  let doy := doe - (365 * yoe + yoe / 4 - yoe / 100) in
  let mp := (5 * doy + 2) / 153 in
  let d := doy - (153 * mp + 2) / 5 + 1 in
  let m := if mp <? 10 then mp + 3 else mp - 9 in
  let y := yoe + era * 400 + (if m <=? 2 then 1 else 0) in
  (y, m - 1, d).

(** The [n] integers from [lo] on. *)
Fixpoint zrange (lo : Z) (n : nat) : list Z :=
  match n with
  | O => []
  | S k => lo :: zrange (lo + 1) k
  end.

Definition eq3 (a b : Z * Z * Z) : bool :=
  let '(a1, a2, a3) := a in
  let '(b1, b2, b3) := b in
  (a1 =? b1) && (a2 =? b2) && (a3 =? b3).

(** The date [yoe + c]-[m]-[d] of the cycle is converted to a day of the
    cycle and back to itself; so is every date of a month. *)
Definition check_date (yoe c m d : Z) : bool :=
  let doe := doeOf yoe m d in
  (0 <=? doe) && (doe <? 146097) && eq3 (civilCore 0 doe) (yoe + c, m - 1, d).

Definition check_month (yoe m : Z) : bool :=
  let c := if m <=? 2 then 1 else 0 in
  forallb (check_date yoe c m) (zrange 1 (Z.to_nat (daysInMonth (yoe + c) m))).

(** The first day of the month after month [m] of year [r] follows the
    last day of month [m]. *)
Definition check_next (r m : Z) : bool :=
  if m <? 12
  then Dayjs.daysFromCivil r (m + 1) 1 =? Dayjs.daysFromCivil r m (daysInMonth r m) + 1
  else Dayjs.daysFromCivil (r + 1) 1 1 =? Dayjs.daysFromCivil r 12 31 + 1.

(** * Properties *)

(** ** Facts about the date model *)

Lemma isAfter_iff (a b : Dayjs) :
  Dayjs.isAfter a b = true <-> Dayjs.valueOf b < Dayjs.valueOf a.
Proof. unfold Dayjs.isAfter. apply Z.ltb_lt. Qed.

Lemma isBefore_iff (a b : Dayjs) :
  Dayjs.isBefore a b = true <-> Dayjs.valueOf a < Dayjs.valueOf b.
Proof. unfold Dayjs.isBefore. apply Z.ltb_lt. Qed.

Lemma isSameDay_iff (a b : Dayjs) :
  Dayjs.isSameDay a b = true <-> Dayjs.dayNumber a = Dayjs.dayNumber b.
Proof.
  unfold Dayjs.isSameDay, Dayjs.startOfDay, Dayjs.endOfDay, Dayjs.dayNumber.
  cbn [Dayjs.valueOf].
  rewrite andb_true_iff, !Z.leb_le.
  unfold Dayjs.MILLISECONDS_A_DAY.
  set (q := Dayjs.valueOf a / 86400000).
  split.
  - intros [Hlo Hhi].
    apply Z.div_unique with (r := Dayjs.valueOf b - 86400000 * q); lia.
  - intros ->.
    pose proof (Z.mod_pos_bound (Dayjs.valueOf b) 86400000 ltac:(lia)) as Hm.
    pose proof (Z.div_mod (Dayjs.valueOf b) 86400000 ltac:(lia)) as Hd.
    lia.
Qed.

Lemma isBetween_iff (d x y : Dayjs) :
  Dayjs.isBetween d x y = true <->
  Dayjs.valueOf (earlier x y) <= Dayjs.valueOf d <= Dayjs.valueOf (later x y).
Proof.
  unfold Dayjs.isBetween, Dayjs.isBefore, Dayjs.isAfter, earlier, later.
  destruct (Z.leb_spec (Dayjs.valueOf x) (Dayjs.valueOf y));
    rewrite orb_true_iff, !andb_true_iff, !negb_true_iff, !Z.ltb_ge; lia.
Qed.

Lemma dayNumber_mono (a b : Dayjs) :
  Dayjs.valueOf a <= Dayjs.valueOf b -> Dayjs.dayNumber a <= Dayjs.dayNumber b.
Proof.
  intros H. unfold Dayjs.dayNumber, Dayjs.MILLISECONDS_A_DAY.
  apply Z.div_le_mono; lia.
Qed.

(** ** Facts about the interpreter *)

(** Closes [forall x, o = Some x -> P x] from [H : o = None] or from
    [H : o = Some y] with [P y] among the hypotheses. *)
Ltac by_slot H :=
  let x := fresh "x" in
  let Hx := fresh "Hx" in
  intros x Hx; rewrite H in Hx;
  first [discriminate Hx | injection Hx as <-; assumption].

Lemma slot_pair0 (x y : option Dayjs) : slot [x; y] 0 = x.
Proof. destruct x; reflexivity. Qed.

Lemma slot_pair1 (x y : option Dayjs) : slot [x; y] 1 = y.
Proof. destruct y; reflexivity. Qed.

Lemma same_date_refl (x : option Dayjs) : same_date x x = true.
Proof. destruct x; simpl; [apply Z.eqb_refl | reflexivity]. Qed.

(** An event changes the [value] prop, the turn flag and the callback log
    in the handler only: the effect of the following render touches the
    picker position alone. *)
Lemma rerender_keeps (prev next : Widget) :
  value (rerender prev next) = value next
  /\ startTurn (rerender prev next) = startTurn next
  /\ reported (rerender prev next) = reported next.
Proof.
  unfold rerender. destruct (same_deps prev next); simpl; auto.
Qed.

Lemma step_value (w : Widget) (ev : Event) :
  value (step w ev) = value (handled w ev).
Proof. apply rerender_keeps. Qed.

Lemma step_startTurn (w : Widget) (ev : Event) :
  startTurn (step w ev) = startTurn (handled w ev).
Proof. apply rerender_keeps. Qed.

Lemma step_reported (w : Widget) (ev : Event) :
  reported (step w ev) = reported (handled w ev).
Proof. apply rerender_keeps. Qed.

Lemma step_selection (w : Widget) (ev : Event) :
  selection (step w ev) = selection (handled w ev).
Proof. unfold selection, startDay, endDay. now rewrite step_value. Qed.

(** The calls of a click in each of the four branches of [handleChange]. *)
Lemma handleChange_start_reverse (w : Widget) (d e : Dayjs) :
  startTurn w = true -> endDay w = Some e -> Dayjs.valueOf e < Dayjs.valueOf d ->
  handleChange w (Some d) =
  [SetPickerValue (Some d); UpdateValue [Some d; None]; SetStartTurn false].
Proof.
  intros Ht He Hlt. unfold handleChange. rewrite Ht, He.
  apply isAfter_iff in Hlt. now rewrite Hlt.
Qed.

Lemma handleChange_start_keep (w : Widget) (d : Dayjs) :
  startTurn w = true ->
  (forall e, endDay w = Some e -> Dayjs.valueOf d <= Dayjs.valueOf e) ->
  handleChange w (Some d) =
  [SetPickerValue (Some d); UpdateValue [Some d; endDay w]; SetStartTurn false].
Proof.
  intros Ht Hle. unfold handleChange. rewrite Ht.
  destruct (endDay w) as [e|]; [|reflexivity].
  specialize (Hle e eq_refl).
  unfold Dayjs.isAfter. destruct (Z.ltb_spec (Dayjs.valueOf e) (Dayjs.valueOf d)).
  - lia.
  - reflexivity.
Qed.

Lemma handleChange_end_reverse (w : Widget) (d s : Dayjs) :
  startTurn w = false -> startDay w = Some s -> Dayjs.valueOf d < Dayjs.valueOf s ->
  handleChange w (Some d) =
  [SetPickerValue (Some d); UpdateValue [Some d; Some s]; SetStartTurn false].
Proof.
  intros Ht Hs Hlt. unfold handleChange. rewrite Ht, Hs.
  apply isBefore_iff in Hlt. now rewrite Hlt.
Qed.

Lemma handleChange_end_keep (w : Widget) (d : Dayjs) :
  startTurn w = false ->
  (forall s, startDay w = Some s -> Dayjs.valueOf s <= Dayjs.valueOf d) ->
  handleChange w (Some d) =
  [SetPickerValue (Some d); UpdateValue [startDay w; Some d]; SetStartTurn true].
Proof.
  intros Ht Hle. unfold handleChange. rewrite Ht.
  destruct (startDay w) as [s|]; [|reflexivity].
  specialize (Hle s eq_refl).
  unfold Dayjs.isBefore. destruct (Z.ltb_spec (Dayjs.valueOf d) (Dayjs.valueOf s)).
  - lia.
  - reflexivity.
Qed.

(** Every click is a setter of the picker position, one report of a pair
    and a setter of the turn flag. *)
Lemma handled_click (w : Widget) (d : Dayjs) (p : RangeValue) (b : bool) :
  handleChange w (Some d) = [SetPickerValue (Some d); UpdateValue p; SetStartTurn b] ->
  handled w (Click (Some d)) = mkWidget p b (Some d) (reported w ++ [p]).
Proof.
  intros H. unfold handled, handler. rewrite H. reflexivity.
Qed.

Lemma step_click (w : Widget) (d : Dayjs) (p : RangeValue) (b : bool) :
  handleChange w (Some d) = [SetPickerValue (Some d); UpdateValue p; SetStartTurn b] ->
  value (step w (Click (Some d))) = p
  /\ startTurn (step w (Click (Some d))) = b
  /\ reported (step w (Click (Some d))) = reported w ++ [p].
Proof.
  intros H. rewrite step_value, step_startTurn, step_reported.
  rewrite (handled_click w d p b H). auto.
Qed.

Lemma same_deps_refl (w : Widget) : same_deps w w = true.
Proof.
  unfold same_deps. rewrite !same_date_refl, Bool.eqb_reflx. reflexivity.
Qed.

Lemma step_null_click (w : Widget) : step w (Click None) = w.
Proof.
  unfold step, handled, handler, handleChange, apply_calls, rerender. simpl.
  now rewrite same_deps_refl.
Qed.

(** A click on a date always changes a dependency of the effect, so the
    effect runs after every such click. *)
Lemma click_changes_deps (w : Widget) (d : Dayjs) :
  same_deps w (handled w (Click (Some d))) = false.
Proof.
  unfold same_deps.
  destruct (startTurn w) eqn:Ht.
  - assert (startTurn (handled w (Click (Some d))) = false) as ->.
    { unfold handled, handler, handleChange. rewrite Ht.
      destruct (endDay w) as [e|]; [destruct (Dayjs.isAfter d e)|]; reflexivity. }
    now rewrite andb_false_r.
  - destruct (startDay w) as [s|] eqn:Hs.
    + destruct (Z.ltb_spec (Dayjs.valueOf d) (Dayjs.valueOf s)) as [Hlt|Hge].
      * rewrite (handled_click w d _ _ (handleChange_end_reverse w d s Ht Hs Hlt)).
        unfold startDay at 1. cbn [value]. rewrite slot_pair0. simpl.
        destruct (Z.eqb_spec (Dayjs.valueOf s) (Dayjs.valueOf d)); [lia|reflexivity].
      * assert (Hk : forall s', startDay w = Some s' ->
                                Dayjs.valueOf s' <= Dayjs.valueOf d) by (by_slot Hs).
        rewrite (handled_click w d _ _ (handleChange_end_keep w d Ht Hk)).
        cbn [startTurn]. now rewrite andb_false_r.
    + assert (Hk : forall s', startDay w = Some s' ->
                              Dayjs.valueOf s' <= Dayjs.valueOf d) by (by_slot Hs).
      rewrite (handled_click w d _ _ (handleChange_end_keep w d Ht Hk)).
      cbn [startTurn]. now rewrite andb_false_r.
Qed.

(** The first click on the empty widget stores the date as the start and
    passes the turn to the end. *)
Lemma first_click (a : Dayjs) :
  value (step initial (Click (Some a))) = [Some a; None]
  /\ startTurn (step initial (Click (Some a))) = false
  /\ reported (step initial (Click (Some a))) = [[Some a; None]].
Proof.
  apply (step_click initial a [Some a; None] false). reflexivity.
Qed.

(** Whatever the previous state, the pair a click reports is ordered. *)
Lemma click_ordered (w : Widget) (d : Dayjs) : ordered (step w (Click (Some d))).
Proof.
  unfold ordered, startDay, endDay. intros s e.
  destruct (startTurn w) eqn:Ht.
  - destruct (endDay w) as [e0|] eqn:He.
    + destruct (Z.ltb_spec (Dayjs.valueOf e0) (Dayjs.valueOf d)) as [Hlt|Hge].
      * destruct (step_click w d _ _ (handleChange_start_reverse w d e0 Ht He Hlt))
          as (-> & _). simpl. discriminate.
      * assert (Hk : forall e', endDay w = Some e' ->
                                Dayjs.valueOf d <= Dayjs.valueOf e') by (by_slot He).
        destruct (step_click w d _ _ (handleChange_start_keep w d Ht Hk))
          as (-> & _). rewrite He. simpl. intros [= <-] [= <-]. exact Hge.
    + assert (Hk : forall e', endDay w = Some e' ->
                              Dayjs.valueOf d <= Dayjs.valueOf e') by (by_slot He).
      destruct (step_click w d _ _ (handleChange_start_keep w d Ht Hk))
        as (-> & _). rewrite He. simpl. discriminate.
  - destruct (startDay w) as [s0|] eqn:Hs.
    + destruct (Z.ltb_spec (Dayjs.valueOf d) (Dayjs.valueOf s0)) as [Hlt|Hge].
      * destruct (step_click w d _ _ (handleChange_end_reverse w d s0 Ht Hs Hlt))
          as (-> & _). simpl. intros [= <-] [= <-]. lia.
      * assert (Hk : forall s', startDay w = Some s' ->
                                Dayjs.valueOf s' <= Dayjs.valueOf d) by (by_slot Hs).
        destruct (step_click w d _ _ (handleChange_end_keep w d Ht Hk))
          as (-> & _). rewrite Hs. simpl. intros [= <-] [= <-]. exact Hge.
    + assert (Hk : forall s', startDay w = Some s' ->
                              Dayjs.valueOf s' <= Dayjs.valueOf d) by (by_slot Hs).
      destruct (step_click w d _ _ (handleChange_end_keep w d Ht Hk))
        as (-> & _). rewrite Hs. simpl. discriminate.
Qed.

Lemma step_ordered (w : Widget) (ev : Event) : ordered w -> ordered (step w ev).
Proof.
  intros Hw. destruct ev as [[d|]|].
  - apply click_ordered.
  - now rewrite step_null_click.
  - unfold ordered, startDay. rewrite step_value. simpl. discriminate.
Qed.

(** ** The click handler *)

(** C1: on the end turn, a click on a date [d] strictly before the present
    start [s] reports the pair (d, s) and leaves the turn on the end; so
    clicking [s] and then the earlier [d] on the empty widget gives the
    selection (d, s) with the turn still on the end. *)
Theorem end_turn_click_before_start (w : Widget) (s d : Dayjs) :
  startTurn w = false ->
  startDay w = Some s ->
  Dayjs.valueOf d < Dayjs.valueOf s ->
  (selection (step w (Click (Some d))) = (Some d, Some s)
   /\ startTurn (step w (Click (Some d))) = false
   /\ reported (step w (Click (Some d))) = reported w ++ [[Some d; Some s]])
  /\ (selection (run initial [Click (Some s); Click (Some d)]) = (Some d, Some s)
      /\ startTurn (run initial [Click (Some s); Click (Some d)]) = false).
Proof.
  intros Ht Hs Hlt.
  assert (Hrev : forall u, startTurn u = false -> startDay u = Some s ->
            selection (step u (Click (Some d))) = (Some d, Some s)
            /\ startTurn (step u (Click (Some d))) = false
            /\ reported (step u (Click (Some d))) = reported u ++ [[Some d; Some s]]).
  { intros u Hu Hus.
    destruct (step_click u d _ _ (handleChange_end_reverse u d s Hu Hus Hlt))
      as (Hv & Hb & Hr).
    unfold selection, startDay, endDay. rewrite Hv, Hb, Hr. auto. }
  split.
  - apply Hrev; assumption.
  - cbn [run fold_left].
    destruct (first_click s) as (Hv & Hb & _).
    destruct (Hrev (step initial (Click (Some s)))) as (H1 & H2 & _).
    + exact Hb.
    + unfold startDay. now rewrite Hv.
    + auto.
Qed.

Lemma end_turn_click_before_start_witness :
  let w := mkWidget [Some (Dayjs.ofDate 2024 1 15); None] false None [] in
  let d := Dayjs.ofDate 2024 1 10 in
  selection (step w (Click (Some d))) = (Some d, Some (Dayjs.ofDate 2024 1 15))
  /\ startTurn (step w (Click (Some d))) = false.
Proof.
  intros w d.
  destruct (end_turn_click_before_start w (Dayjs.ofDate 2024 1 15) d)
    as ((H1 & H2 & _) & _).
  - reflexivity.
  - reflexivity.
  - vm_compute. reflexivity.
  - split; assumption.
Defined.

(** C2: on the start turn, a click on a date [d] reports (d, none) when an
    end is present and [d] is strictly after it, and (d, end) otherwise
    (the end possibly absent); either way the turn passes to the end and
    the pair reaches the change callback. *)
Theorem start_turn_click (w : Widget) (d : Dayjs) :
  startTurn w = true ->
  (forall e, endDay w = Some e -> Dayjs.valueOf e < Dayjs.valueOf d ->
     selection (step w (Click (Some d))) = (Some d, None)
     /\ reported (step w (Click (Some d))) = reported w ++ [[Some d; None]])
  /\ ((forall e, endDay w = Some e -> Dayjs.valueOf d <= Dayjs.valueOf e) ->
      selection (step w (Click (Some d))) = (Some d, endDay w)
      /\ reported (step w (Click (Some d))) = reported w ++ [[Some d; endDay w]])
  /\ startTurn (step w (Click (Some d))) = false.
Proof.
  intros Ht. split; [|split].
  - intros e He Hlt.
    destruct (step_click w d _ _ (handleChange_start_reverse w d e Ht He Hlt))
      as (Hv & _ & Hr).
    unfold selection, startDay, endDay. now rewrite Hv.
  - intros Hle.
    destruct (step_click w d _ _ (handleChange_start_keep w d Ht Hle))
      as (Hv & _ & Hr).
    unfold selection, startDay at 1, endDay at 1.
    now rewrite Hv, slot_pair0, slot_pair1.
  - rewrite step_startTurn. unfold handled, handler, handleChange. rewrite Ht.
    destruct (endDay w) as [e|]; [destruct (Dayjs.isAfter d e)|]; reflexivity.
Qed.

Lemma start_turn_click_witness :
  let w := mkWidget [Some (Dayjs.ofDate 2024 1 5); Some (Dayjs.ofDate 2024 1 10)]
             true None [] in
  selection (step w (Click (Some (Dayjs.ofDate 2024 1 20))))
    = (Some (Dayjs.ofDate 2024 1 20), None)
  /\ selection (step w (Click (Some (Dayjs.ofDate 2024 1 7))))
    = (Some (Dayjs.ofDate 2024 1 7), Some (Dayjs.ofDate 2024 1 10))
  /\ startTurn (step w (Click (Some (Dayjs.ofDate 2024 1 20)))) = false.
Proof.
  intros w.
  destruct (start_turn_click w (Dayjs.ofDate 2024 1 20) eq_refl) as (Hrev & _ & Hturn).
  destruct (start_turn_click w (Dayjs.ofDate 2024 1 7) eq_refl) as (_ & Hkeep & _).
  split; [|split].
  - apply (Hrev (Dayjs.ofDate 2024 1 10)); [reflexivity | vm_compute; reflexivity].
  - apply Hkeep. intros e [= <-]. vm_compute. discriminate.
  - exact Hturn.
Defined.

(** C3: from the empty widget on its start turn, through any sequence of
    clicks (on a date or on nothing) and clears, with every reported pair
    handed back as the selection, a selection with both dates present has
    its start at or before its end. *)
Theorem reachable_selection_ordered (w : Widget) (s e : Dayjs) :
  reachable w ->
  selection w = (Some s, Some e) ->
  Dayjs.valueOf s <= Dayjs.valueOf e.
Proof.
  intros Hreach Hsel.
  assert (Hord : ordered w).
  { clear Hsel. induction Hreach as [|w ev _ IH].
    - intros s' e' Hs'. discriminate Hs'.
    - now apply step_ordered. }
  injection Hsel as Hs He. now apply Hord.
Qed.

Lemma reachable_run (evs : list Event) (w : Widget) :
  reachable w -> reachable (run w evs).
Proof.
  revert w. induction evs as [|ev evs IH]; intros w Hw.
  - exact Hw.
  - cbn [run fold_left]. apply IH. now constructor.
Qed.

Lemma reachable_selection_ordered_witness :
  let a := Dayjs.ofDate 2024 1 15 in
  let b := Dayjs.ofDate 2024 1 10 in
  let c := Dayjs.ofDate 2024 1 20 in
  let w := run initial [Click (Some a); Click (Some b); Click None;
                        Click (Some c); Click (Some b)] in
  selection w = (Some b, Some c)
  /\ Dayjs.valueOf b <= Dayjs.valueOf c.
Proof.
  intros a b c w.
  assert (Hsel : selection w = (Some b, Some c)) by (vm_compute; reflexivity).
  split.
  - exact Hsel.
  - apply (reachable_selection_ordered w b c).
    + apply reachable_run. constructor.
    + exact Hsel.
Defined.

(** C4: on the empty widget on its start turn, a click on [a] followed by a
    click on [b], with [a] at or before [b] (so also with [b = a]), gives
    the selection (a, b) and returns the turn to the start. *)
Theorem two_clicks_in_order (a b : Dayjs) :
  Dayjs.valueOf a <= Dayjs.valueOf b ->
  selection initial = (None, None)
  /\ startTurn initial = true
  /\ selection (run initial [Click (Some a); Click (Some b)]) = (Some a, Some b)
  /\ startTurn (run initial [Click (Some a); Click (Some b)]) = true.
Proof.
  intros Hle. split; [reflexivity|]. split; [reflexivity|].
  cbn [run fold_left].
  destruct (first_click a) as (Hv & Hb & _).
  set (w1 := step initial (Click (Some a))) in *.
  assert (Hs : startDay w1 = Some a) by (unfold startDay; now rewrite Hv).
  assert (Hk : forall s, startDay w1 = Some s -> Dayjs.valueOf s <= Dayjs.valueOf b)
    by (by_slot Hs).
  destruct (step_click w1 b _ _ (handleChange_end_keep w1 b Hb Hk)) as (Hv2 & Hb2 & _).
  unfold selection, startDay at 1, endDay. rewrite Hv2, Hb2, Hs. auto.
Qed.

Lemma two_clicks_in_order_witness :
  let a := Dayjs.ofDate 2024 1 10 in
  let b := Dayjs.ofDate 2024 1 15 in
  (selection (run initial [Click (Some a); Click (Some b)]) = (Some a, Some b)
   /\ startTurn (run initial [Click (Some a); Click (Some b)]) = true)
  /\ (selection (run initial [Click (Some a); Click (Some a)]) = (Some a, Some a)
      /\ startTurn (run initial [Click (Some a); Click (Some a)]) = true).
Proof.
  intros a b. split.
  - apply (two_clicks_in_order a b). vm_compute. discriminate.
  - apply (two_clicks_in_order a a). apply Z.le_refl.
Defined.

(** ** The clear handler *)

(** C5: whatever the selection, the turn and the picker position were, the
    clear action reports the pair (none, none), which becomes the
    selection, puts the turn on the start and the picker position on
    none. *)
Theorem clear_resets (w : Widget) :
  handleClear w = [UpdateValue [None; None]; SetPickerValue None; SetStartTurn true]
  /\ selection (step w Clear) = (None, None)
  /\ startTurn (step w Clear) = true
  /\ pickerValue (handled w Clear) = None
  /\ pickerValue (step w Clear) = None
  /\ reported (step w Clear) = reported w ++ [[None; None]].
Proof.
  split; [reflexivity|].
  rewrite step_selection, step_startTurn, step_reported.
  repeat split.
  unfold step, rerender.
  destruct (same_deps w (handled w Clear)); reflexivity.
Qed.

(** ** Clicks without a date *)

(** C9: a click that carries no date makes no call at all, so the change
    callback is not invoked, and the selection, the turn and the picker
    position stay as they were. *)
Theorem null_click_is_noop (w : Widget) :
  handleChange w None = []
  /\ handled w (Click None) = w
  /\ step w (Click None) = w
  /\ selection (step w (Click None)) = selection w
  /\ startTurn (step w (Click None)) = startTurn w
  /\ pickerValue (step w (Click None)) = pickerValue w
  /\ reported (step w (Click None)) = reported w.
Proof.
  rewrite step_null_click. repeat split.
Qed.

(** ** The day renderer *)

(** With an endpoint present, [Day] draws the wrapped day, on the bounds
    [startDay || endDay] and [endDay || startDay]. *)
Lemma Day_range (d : Dayjs) (s e : option Dayjs) (lo hi : Dayjs) :
  range_bounds s e = Some (lo, hi) ->
  exists start end_,
    or_else s e = Some start /\ or_else e s = Some end_
    /\ lo = earlier start end_ /\ hi = later start end_
    /\ inRangeStyled (Day d s e) = Dayjs.isBetween d start end_
    /\ markedFirst (Day d s e) = Dayjs.isSameDay d start
    /\ markedLast (Day d s e) = Dayjs.isSameDay d end_
    /\ endpointHighlighted (Day d s e)
       = Dayjs.isSameDay d start || Dayjs.isSameDay d end_
    /\ roundedLeft (Day d s e) = Dayjs.isSameDay d start || (Dayjs.day d =? 0)
    /\ roundedRight (Day d s e) = Dayjs.isSameDay d end_ || (Dayjs.day d =? 6).
Proof.
  intros Hb.
  assert (Hself : forall a, a = earlier a a /\ a = later a a).
  { intros a. unfold earlier, later. now rewrite Z.leb_refl. }
  destruct s as [a|], e as [b|]; simpl in Hb; try discriminate;
    injection Hb as <- <-;
    [exists a, b | exists a, a | exists b, b];
    unfold Day; cbn -[Dayjs.isBetween Dayjs.isSameDay Dayjs.day Z.eqb];
    repeat match goal with
           | |- _ /\ _ => split
           | |- _ = earlier ?a ?a => apply Hself
           | |- _ = later ?a ?a => apply Hself
           | |- _ => reflexivity
           | |- context [Dayjs.isBetween ?x ?y ?z] =>
               destruct (Dayjs.isBetween x y z); reflexivity
           | |- context [Dayjs.isSameDay ?x ?y || Dayjs.isSameDay ?x ?z] =>
               destruct (Dayjs.isSameDay x y), (Dayjs.isSameDay x z); reflexivity
           | |- context [Dayjs.isSameDay ?x ?y || ?c] =>
               destruct (Dayjs.isSameDay x y), c; reflexivity
           end.
Qed.

(** C6: with at least one endpoint in the selection, a day gets the neutral
    in-range background exactly when it lies between the earlier and the
    later of the two dates, both included, a lone endpoint being both
    bounds. *)
Theorem in_range_background (d : Dayjs) (s e : option Dayjs) (lo hi : Dayjs) :
  range_bounds s e = Some (lo, hi) ->
  inRangeStyled (Day d s e) = true
  <-> Dayjs.valueOf lo <= Dayjs.valueOf d <= Dayjs.valueOf hi.
Proof.
  intros Hb.
  destruct (Day_range d s e lo hi Hb) as (start & end_ & _ & _ & -> & -> & -> & _).
  apply isBetween_iff.
Qed.

Lemma in_range_background_witness :
  let s := Some (Dayjs.ofDate 2024 1 10) in
  let e := Some (Dayjs.ofDate 2024 1 15) in
  inRangeStyled (Day (Dayjs.ofDate 2024 1 12) s e) = true
  /\ inRangeStyled (Day (Dayjs.ofDate 2024 1 10) s None) = true
  /\ inRangeStyled (Day (Dayjs.ofDate 2024 1 16) s e) = false.
Proof.
  intros s e. split; [|split].
  - apply (in_range_background _ s e (Dayjs.ofDate 2024 1 10) (Dayjs.ofDate 2024 1 15)).
    + reflexivity.
    + vm_compute. split; discriminate.
  - apply (in_range_background _ s None (Dayjs.ofDate 2024 1 10) (Dayjs.ofDate 2024 1 10)).
    + reflexivity.
    + vm_compute. split; discriminate.
  - reflexivity.
Defined.

(** The cells of the calendar are drawn at midnight.  When the earlier
    bound carries no time of day either, being between the bounds is being
    between their calendar days. *)
Lemma between_calendar_days (d : Dayjs) (s e : option Dayjs) (lo hi : Dayjs) :
  range_bounds s e = Some (lo, hi) ->
  atMidnight d -> atMidnight lo ->
  inRangeStyled (Day d s e) = true
  <-> Dayjs.dayNumber lo <= Dayjs.dayNumber d <= Dayjs.dayNumber hi.
Proof.
  intros Hb Hd Hlo.
  destruct (Day_range d s e lo hi Hb) as (start & end_ & _ & _ & El & Eh & -> & _).
  rewrite isBetween_iff, <- El, <- Eh.
  unfold atMidnight, Dayjs.startOfDay in Hd, Hlo. cbn [Dayjs.valueOf] in Hd, Hlo.
  rewrite <- Hd, <- Hlo. clear Hd Hlo.
  unfold Dayjs.dayNumber, Dayjs.MILLISECONDS_A_DAY.
  pose proof (Z.mod_pos_bound (Dayjs.valueOf hi) 86400000 ltac:(lia)) as Hm.
  pose proof (Z.div_mod (Dayjs.valueOf hi) 86400000 ltac:(lia)) as Hq.
  lia.
Qed.

(** C7, as stated, fails on a selection whose start is after its end: with
    the selection (20 Jan 2024, 10 Jan 2024) the day 20 Jan 2024 is marked
    first although it is the later bound. *)
Lemma endpoints_by_order_fails :
  ~ endpoints_by_order (Dayjs.ofDate 2024 1 20)
      (Some (Dayjs.ofDate 2024 1 20)) (Some (Dayjs.ofDate 2024 1 10)).
Proof.
  intros H.
  destruct (H (Dayjs.ofDate 2024 1 10) (Dayjs.ofDate 2024 1 20) eq_refl)
    as ((Hfirst & _) & _).
  specialize (Hfirst eq_refl). vm_compute in Hfirst. discriminate.
Qed.

(** C7, amended: with at least one endpoint in the selection, and its start
    not on a later calendar day than its end, a day is marked first exactly
    when it is the calendar day of the earlier bound and last exactly when
    it is the calendar day of the later bound; the days so marked, and only
    they, get the endpoint highlight (white on the primary colour). *)
Theorem endpoint_marks (d : Dayjs) (s e : option Dayjs) (lo hi : Dayjs) :
  range_bounds s e = Some (lo, hi) ->
  start_day_not_after_end s e ->
  (markedFirst (Day d s e) = true <-> Dayjs.dayNumber d = Dayjs.dayNumber lo)
  /\ (markedLast (Day d s e) = true <-> Dayjs.dayNumber d = Dayjs.dayNumber hi)
  /\ (endpointHighlighted (Day d s e) = true
      <-> markedFirst (Day d s e) = true \/ markedLast (Day d s e) = true).
Proof.
  intros Hb Hord.
  destruct (Day_range d s e lo hi Hb)
    as (start & end_ & Hs & He & Hlo & Hhi & _ & HF & HL & HH & _).
  rewrite HH, HF, HL, orb_true_iff, !isSameDay_iff.
  assert (Hdays : Dayjs.dayNumber lo = Dayjs.dayNumber start
                  /\ Dayjs.dayNumber hi = Dayjs.dayNumber end_).
  { subst lo hi. unfold earlier, later.
    destruct (Z.leb_spec (Dayjs.valueOf start) (Dayjs.valueOf end_)) as [Hle|Hgt].
    - auto.
    - assert (Dayjs.dayNumber end_ <= Dayjs.dayNumber start)
        by (apply dayNumber_mono; lia).
      assert (Dayjs.dayNumber start <= Dayjs.dayNumber end_).
      { destruct s as [a|], e as [b|]; simpl in Hs, He, Hord;
          try discriminate; injection Hs as <-; injection He as <-; lia. }
      lia. }
  destruct Hdays as [-> ->]. tauto.
Qed.

Lemma endpoint_marks_witness :
  let s := Some (Dayjs.ofDate 2024 1 10) in
  let e := Some (Dayjs.ofDate 2024 1 15) in
  markedFirst (Day (Dayjs.ofDate 2024 1 10) s e) = true
  /\ markedLast (Day (Dayjs.ofDate 2024 1 15) s e) = true
  /\ endpointHighlighted (Day (Dayjs.ofDate 2024 1 10) s e) = true.
Proof.
  intros s e.
  assert (Hb : range_bounds s e
               = Some (Dayjs.ofDate 2024 1 10, Dayjs.ofDate 2024 1 15))
    by reflexivity.
  assert (Hord : start_day_not_after_end s e) by (vm_compute; discriminate).
  destruct (endpoint_marks (Dayjs.ofDate 2024 1 10) s e _ _ Hb Hord)
    as (HF & _ & HH).
  destruct (endpoint_marks (Dayjs.ofDate 2024 1 15) s e _ _ Hb Hord)
    as (_ & HL & _).
  split; [|split].
  - apply HF. reflexivity.
  - apply HL. reflexivity.
  - apply HH. left. apply HF. reflexivity.
Defined.

(** C10: the week-boundary rounding looks at the day of the week alone,
    0 (Sunday) for the left corners and 6 (Saturday) for the right ones:
    with at least one endpoint in the selection every Sunday cell has its
    left corners rounded and every Saturday cell its right corners, in
    range or not; a cell is rounded on the left exactly when it is marked
    first or is a Sunday, on the right exactly when it is marked last or is
    a Saturday. *)
Theorem week_boundary_rounding (d : Dayjs) (s e : option Dayjs) :
  s <> None \/ e <> None ->
  (Dayjs.day d = 0 -> roundedLeft (Day d s e) = true)
  /\ (Dayjs.day d = 6 -> roundedRight (Day d s e) = true)
  /\ roundedLeft (Day d s e) = markedFirst (Day d s e) || (Dayjs.day d =? 0)
  /\ roundedRight (Day d s e) = markedLast (Day d s e) || (Dayjs.day d =? 6).
Proof.
  intros Hsome.
  assert (Hb : exists lo hi, range_bounds s e = Some (lo, hi)).
  { destruct s as [a|], e as [b|]; simpl; eauto. destruct Hsome; congruence. }
  destruct Hb as (lo & hi & Hb).
  destruct (Day_range d s e lo hi Hb)
    as (start & end_ & _ & _ & _ & _ & _ & HF & HL & _ & HRl & HRr).
  rewrite HRl, HRr, HF, HL. repeat split.
  - intros ->. apply orb_true_r.
  - intros ->. apply orb_true_r.
Qed.

Lemma week_boundary_rounding_witness :
  let s := Some (Dayjs.ofDate 2024 1 9) in
  let e := Some (Dayjs.ofDate 2024 1 11) in
  let sunday := Dayjs.ofDate 2024 1 14 in
  let saturday := Dayjs.ofDate 2024 1 13 in
  (inRangeStyled (Day sunday s e) = false /\ roundedLeft (Day sunday s e) = true)
  /\ (inRangeStyled (Day saturday s e) = false
      /\ roundedRight (Day saturday s e) = true).
Proof.
  intros s e sunday saturday.
  assert (Hsome : s <> None \/ e <> None) by (left; discriminate).
  destruct (week_boundary_rounding sunday s e Hsome) as (Hl & _).
  destruct (week_boundary_rounding saturday s e Hsome) as (_ & Hr & _).
  split; split.
  - reflexivity.
  - apply Hl. reflexivity.
  - reflexivity.
  - apply Hr. reflexivity.
Defined.

(** ** The calendar *)

Lemma in_zrange (n : nat) :
  forall lo x, lo <= x < lo + Z.of_nat n -> In x (zrange lo n).
Proof.
  induction n as [|n IH]; intros lo x Hx.
  - simpl in Hx. lia.
  - cbn [zrange]. destruct (Z.eq_dec x lo) as [->|Hne].
    + now left.
    + right. apply IH. lia.
Qed.

Lemma check_month_all :
  forallb (fun yoe => forallb (check_month yoe) (zrange 1 12)) (zrange 0 400) = true.
Proof. vm_compute. reflexivity. Qed.

Lemma check_next_all :
  forallb (fun r => forallb (check_next r) (zrange 1 12)) (zrange 0 400) = true.
Proof. vm_compute. reflexivity. Qed.

Lemma check_text_all :
  forallb (fun d => String.eqb (Dayjs.String_of d) (dayText d)) (zrange 1 31)
  && forallb (fun y => String.eqb (Dayjs.padStart (Dayjs.String_of y) 4 "0") (yearText y))
       (zrange 0 (Z.to_nat (MAX_YEAR + 1))) = true.
Proof. vm_compute. reflexivity. Qed.

Lemma isLeapYear_shift (y q : Z) : isLeapYear (y + 400 * q) = isLeapYear y.
Proof.
  unfold isLeapYear.
  replace ((y + 400 * q) mod 4) with (y mod 4) by (Z.div_mod_to_equations; lia).
  replace ((y + 400 * q) mod 100) with (y mod 100) by (Z.div_mod_to_equations; lia).
  replace ((y + 400 * q) mod 400) with (y mod 400) by (Z.div_mod_to_equations; lia).
  reflexivity.
Qed.

Lemma daysInMonth_shift (y q m : Z) : daysInMonth (y + 400 * q) m = daysInMonth y m.
Proof. unfold daysInMonth. now rewrite isLeapYear_shift. Qed.

(** A cycle of 400 years has 146097 days. *)
Lemma daysFromCivil_shift (y q m d : Z) :
  Dayjs.daysFromCivil (y + 400 * q) m d = Dayjs.daysFromCivil y m d + 146097 * q.
Proof.
  unfold Dayjs.daysFromCivil. cbv zeta.
  destruct (m <=? 2).
  - replace ((y + 400 * q - 1) / 400) with ((y - 1) / 400 + q)
      by (Z.div_mod_to_equations; lia).
    replace (y + 400 * q - 1 - ((y - 1) / 400 + q) * 400)
      with (y - 1 - (y - 1) / 400 * 400) by lia.
    lia.
  - replace ((y + 400 * q) / 400) with (y / 400 + q)
      by (Z.div_mod_to_equations; lia).
    replace (y + 400 * q - (y / 400 + q) * 400) with (y - y / 400 * 400) by lia.
    lia.
Qed.

Lemma daysFromCivil_in_cycle (r m d : Z) :
  0 <= r - (if m <=? 2 then 1 else 0) < 400 ->
  Dayjs.daysFromCivil r m d
  = doeOf (r - (if m <=? 2 then 1 else 0)) m d - 719468.
Proof.
  intros Hr. unfold Dayjs.daysFromCivil, doeOf. cbv zeta.
  destruct (m <=? 2).
  - replace ((r - 1) / 400) with 0 by (Z.div_mod_to_equations; lia).
    replace (r - 1 - 0 * 400) with (r - 1) by lia. lia.
  - rewrite Z.sub_0_r in Hr.
    replace (r / 400) with 0 by (Z.div_mod_to_equations; lia).
    replace (r - 0 * 400) with (r - 0) by lia. lia.
Qed.

Lemma civilCore_era (era doe : Z) :
  civilCore era doe
  = let '(y0, m0, d) := civilCore 0 doe in (y0 + 400 * era, m0, d).
Proof.
  unfold civilCore. cbv zeta. f_equal. f_equal. lia.
Qed.

Lemma civil_of_cycle_day (era doe : Z) :
  0 <= doe < 146097 ->
  Dayjs.civil (146097 * era + doe - 719468) = civilCore era doe.
Proof.
  intros Hdoe.
  change (Dayjs.civil (146097 * era + doe - 719468))
    with (let z := 146097 * era + doe - 719468 + 719468 in
          civilCore (z / 146097) (z - z / 146097 * 146097)).
  cbv zeta.
  replace (146097 * era + doe - 719468 + 719468) with (146097 * era + doe) by lia.
  replace ((146097 * era + doe) / 146097) with era
    by (Z.div_mod_to_equations; lia).
  f_equal. lia.
Qed.

(** Every year is a year of the cycle shifted by whole cycles. *)
Lemma year_in_cycle (y c : Z) :
  exists q r, y = r + 400 * q /\ 0 <= r - c < 400.
Proof.
  exists ((y - c) / 400), (y - 400 * ((y - c) / 400)).
  split; [lia | Z.div_mod_to_equations; lia].
Qed.

(** The date of the day number of a civil date is that date. *)
Lemma civil_daysFromCivil (y m d : Z) :
  validCivil y m d ->
  Dayjs.civil (Dayjs.daysFromCivil y m d) = (y, m - 1, d).
Proof.
  intros [Hm Hd].
  set (c := if m <=? 2 then 1 else 0).
  destruct (year_in_cycle y c) as (q & r & -> & Hr).
  rewrite daysInMonth_shift in Hd.
  rewrite daysFromCivil_shift, (daysFromCivil_in_cycle r m d Hr). fold c.
  pose proof check_month_all as Hall.
  rewrite forallb_forall in Hall.
  specialize (Hall (r - c) (in_zrange 400 0 (r - c) ltac:(simpl; lia))).
  rewrite forallb_forall in Hall.
  specialize (Hall m (in_zrange 12 1 m ltac:(simpl; lia))).
  unfold check_month in Hall. cbv zeta in Hall. fold c in Hall.
  replace (r - c + c) with r in Hall by lia.
  rewrite forallb_forall in Hall.
  specialize (Hall d (in_zrange (Z.to_nat (daysInMonth r m)) 1 d ltac:(lia))).
  unfold check_date in Hall. cbv zeta in Hall.
  replace (r - c + c) with r in Hall by lia.
  apply andb_true_iff in Hall. destruct Hall as [Hb Heq].
  apply andb_true_iff in Hb. destruct Hb as [Hlo Hhi].
  apply Z.leb_le in Hlo. apply Z.ltb_lt in Hhi.
  replace (doeOf (r - c) m d - 719468 + 146097 * q)
    with (146097 * q + doeOf (r - c) m d - 719468) by lia.
  rewrite civil_of_cycle_day by lia.
  rewrite civilCore_era.
  destruct (civilCore 0 (doeOf (r - c) m d)) as [[y0 m0] d0].
  unfold eq3 in Heq.
  apply andb_true_iff in Heq. destruct Heq as [Heq H3].
  apply andb_true_iff in Heq. destruct Heq as [H1 H2].
  apply Z.eqb_eq in H1, H2, H3. subst. reflexivity.
Qed.

(** The calendar starts on 1 January 1970 and goes from each date to the
    next, so [daysFromCivil] counts the days of the civil calendar. *)
Lemma epoch_day : Dayjs.daysFromCivil 1970 1 1 = 0.
Proof. reflexivity. Qed.

Lemma next_civil_day (y m d : Z) :
  validCivil y m d ->
  let '(y', m', d') := nextCivil y m d in
  validCivil y' m' d'
  /\ Dayjs.daysFromCivil y' m' d' = Dayjs.daysFromCivil y m d + 1.
Proof.
  intros [Hm Hd]. unfold nextCivil.
  destruct (Z.ltb_spec d (daysInMonth y m)) as [Hlt|Hge].
  - split; [split; lia|].
    unfold Dayjs.daysFromCivil. cbv zeta. lia.
  - assert (d = daysInMonth y m) as -> by lia.
    assert (Hmin : forall y0 m0, 1 <= daysInMonth y0 m0).
    { intros y0 m0. unfold daysInMonth.
      destruct (m0 =? 2); [destruct (isLeapYear y0); lia|].
      destruct ((m0 =? 4) || (m0 =? 6) || (m0 =? 9) || (m0 =? 11)); lia. }
    destruct (year_in_cycle y 0) as (q & r & -> & Hr).
    pose proof check_next_all as Hall.
    rewrite forallb_forall in Hall.
    specialize (Hall r (in_zrange 400 0 r ltac:(simpl; lia))).
    rewrite forallb_forall in Hall.
    specialize (Hall m (in_zrange 12 1 m ltac:(simpl; lia))).
    unfold check_next in Hall.
    rewrite daysInMonth_shift.
    destruct (Z.ltb_spec m 12) as [Hm12|Hm12].
    + apply Z.eqb_eq in Hall. split.
      * split; [lia|]. pose proof (Hmin (r + 400 * q) (m + 1)). lia.
      * rewrite !daysFromCivil_shift. lia.
    + apply Z.eqb_eq in Hall. assert (m = 12) as -> by lia. split.
      * split; [lia|]. pose proof (Hmin (r + 400 * q + 1) 1). lia.
      * replace (r + 400 * q + 1) with (r + 1 + 400 * q) by lia.
        rewrite !daysFromCivil_shift.
        change (daysInMonth r 12) with 31. lia.
Qed.

Lemma prev_civil_day (y m d : Z) :
  validCivil y m d ->
  let '(y', m', d') := prevCivil y m d in
  validCivil y' m' d'
  /\ Dayjs.daysFromCivil y' m' d' = Dayjs.daysFromCivil y m d - 1.
Proof.
  intros [Hm Hd]. unfold prevCivil.
  assert (Hmin : forall y0 m0, 1 <= daysInMonth y0 m0).
  { intros y0 m0. unfold daysInMonth.
    destruct (m0 =? 2); [destruct (isLeapYear y0); lia|].
    destruct ((m0 =? 4) || (m0 =? 6) || (m0 =? 9) || (m0 =? 11)); lia. }
  destruct (Z.ltb_spec 1 d) as [Hlt|Hge].
  - split; [split; lia|].
    unfold Dayjs.daysFromCivil. cbv zeta. lia.
  - assert (d = 1) as -> by lia.
    destruct (Z.ltb_spec 1 m) as [Hm1|Hm1].
    + assert (Hv : validCivil y (m - 1) (daysInMonth y (m - 1))).
      { split; [lia|]. pose proof (Hmin y (m - 1)). lia. }
      pose proof (next_civil_day y (m - 1) _ Hv) as Hn.
      unfold nextCivil in Hn. rewrite Z.ltb_irrefl in Hn.
      destruct (Z.ltb_spec (m - 1) 12) as [_|Hbad]; [|lia].
      replace (m - 1 + 1) with m in Hn by lia.
      destruct Hn as [_ Hn]. split; [exact Hv | lia].
    + assert (m = 1) as -> by lia.
      assert (Hv : validCivil (y - 1) 12 31).
      { split; [lia|]. change (daysInMonth (y - 1) 12) with 31. lia. }
      pose proof (next_civil_day (y - 1) 12 31 Hv) as Hn.
      unfold nextCivil in Hn. change (daysInMonth (y - 1) 12) with 31 in Hn.
      cbn [Z.ltb Z.compare Pos.compare Pos.compare_cont] in Hn.
      replace (y - 1 + 1) with y in Hn by lia.
      destruct Hn as [_ Hn]. split; [exact Hv | lia].
Qed.

(** Every day number is the day number of a civil date. *)
Lemma daysFromCivil_onto (n : Z) :
  exists y m d, validCivil y m d /\ Dayjs.daysFromCivil y m d = n.
Proof.
  induction n as [|n IH|n IH] using Z.peano_ind.
  - exists 1970, 1, 1. split; [|reflexivity].
    split; [lia|]. vm_compute. split; discriminate.
  - destruct IH as (y & m & d & Hv & Hn).
    pose proof (next_civil_day y m d Hv) as Hnext.
    destruct (nextCivil y m d) as [[y' m'] d']. destruct Hnext as [Hv' Hn'].
    exists y', m', d'. split; [exact Hv' | lia].
  - destruct IH as (y & m & d & Hv & Hn).
    pose proof (prev_civil_day y m d Hv) as Hprev.
    destruct (prevCivil y m d) as [[y' m'] d']. destruct Hprev as [Hv' Hn'].
    exists y', m', d'. split; [exact Hv' | lia].
Qed.

(** Every instant is on a civil date, and on one only. *)
Lemma onCivilDate_exists (a : Dayjs) : exists y m d, onCivilDate a y m d.
Proof.
  destruct (daysFromCivil_onto (Dayjs.dayNumber a)) as (y & m & d & Hv & Hn).
  exists y, m, d. split; [exact Hv | now symmetry].
Qed.

Lemma onCivilDate_civil (a : Dayjs) (y m d : Z) :
  onCivilDate a y m d ->
  Dayjs.year a = y /\ Dayjs.month a = m - 1 /\ Dayjs.date a = d.
Proof.
  intros [Hv Hn]. unfold Dayjs.year, Dayjs.month, Dayjs.date.
  rewrite Hn, (civil_daysFromCivil y m d Hv). auto.
Qed.

Lemma onCivilDate_unique (a : Dayjs) (y m d y' m' d' : Z) :
  onCivilDate a y m d -> onCivilDate a y' m' d' -> (y, m, d) = (y', m', d').
Proof.
  intros H H'.
  destruct (onCivilDate_civil a y m d H) as (Hy & Hmo & Hd).
  destruct (onCivilDate_civil a y' m' d' H') as (Hy' & Hmo' & Hd').
  f_equal; [f_equal|]; lia.
Qed.

(** The date [format('D MMM YYYY')] writes is the civil date of the
    instant, in the pattern. *)
Lemma format_on_civil_date (a : Dayjs) (y m d : Z) :
  onCivilDate a y m d ->
  0 <= y <= MAX_YEAR ->
  Dayjs.format_D_MMM_YYYY a = D_MMM_YYYY y m d.
Proof.
  intros Hon Hy.
  destruct (onCivilDate_civil a y m d Hon) as (Ey & Em & Ed).
  destruct Hon as [[Hm Hd] _].
  unfold Dayjs.format_D_MMM_YYYY, D_MMM_YYYY. rewrite Ey, Em, Ed.
  pose proof check_text_all as Hall.
  apply andb_true_iff in Hall. destruct Hall as [Hday Hyear].
  rewrite forallb_forall in Hday, Hyear.
  assert (Hd31 : daysInMonth y m <= 31).
  { unfold daysInMonth.
    destruct (m =? 2); [destruct (isLeapYear y); lia|].
    destruct ((m =? 4) || (m =? 6) || (m =? 9) || (m =? 11)); lia. }
  specialize (Hday d (in_zrange 31 1 d ltac:(simpl; lia))).
  specialize (Hyear y (in_zrange (Z.to_nat (MAX_YEAR + 1)) 0 y ltac:(unfold MAX_YEAR in *; lia))).
  apply String.eqb_eq in Hday, Hyear. rewrite Hday, Hyear.
  assert (Hmonth : Dayjs.monthShort (m - 1) = monthText m).
  { assert (m = 1 \/ m = 2 \/ m = 3 \/ m = 4 \/ m = 5 \/ m = 6 \/ m = 7 \/ m = 8
            \/ m = 9 \/ m = 10 \/ m = 11 \/ m = 12) as Hcases by lia.
    repeat (destruct Hcases as [-> | Hcases]); try subst m; reflexivity. }
  now rewrite Hmonth.
Qed.

(** ** The text field *)

(** C8: the text field shows the start formatted as D MMM YYYY, or the word
    Start when there is none, then a hyphen between two spaces, then the
    end formatted likewise, or the word End.  For a date on the civil date
    of year y (from 0 to 9999), month m and day d the formatted text is the
    day of the month without padding, the three letters of the English
    month and the year in four digits, whatever the time of day; every
    instant is on exactly one civil date ([onCivilDate_exists],
    [onCivilDate_unique]).  So the empty selection shows Start - End, and a
    lone start on 15 Jan 2024 shows 15 Jan 2024 - End. *)
Theorem text_field_value (error : option string) (s e : option Dayjs) :
  (forall cs ce : option (Z * Z * Z),
     slotOnDate s cs -> slotOnDate e ce ->
     tf_value (CustomTextField error s e)
     = (shown "Start" cs ++ " - " ++ shown "End" ce)%string)
  /\ tf_value (CustomTextField error s e)
     = ((match s with Some a => Dayjs.format_D_MMM_YYYY a | None => "Start" end)
        ++ " - "
        ++ (match e with Some b => Dayjs.format_D_MMM_YYYY b | None => "End" end))%string
  /\ tf_value (CustomTextField error None None) = "Start - End"%string
  /\ Dayjs.format_D_MMM_YYYY (Dayjs.ofDate 2024 1 15) = "15 Jan 2024"%string
  /\ tf_value (CustomTextField error (Some (Dayjs.ofDate 2024 1 15)) None)
     = "15 Jan 2024 - End"%string.
Proof.
  split; [|repeat split].
  intros cs ce Hs He.
  assert (Hshow : forall word x c, slotOnDate x c ->
            match x with Some a => Dayjs.format_D_MMM_YYYY a | None => word end
            = shown word c).
  { intros word [a|] [[[y m] d]|] H; simpl in H; try contradiction.
    - destruct H as [Hon Hy]. now apply format_on_civil_date.
    - reflexivity. }
  cbn [CustomTextField tf_value].
  now rewrite (Hshow "Start"%string s cs Hs), (Hshow "End"%string e ce He).
Qed.

Lemma text_field_value_witness :
  let s := Some (Dayjs.mk (Dayjs.valueOf (Dayjs.ofDate 2024 2 29) + 37800000)) in
  let e := Some (Dayjs.ofDate 987 12 5) in
  tf_value (CustomTextField None s e) = "29 Feb 2024 - 5 Dec 0987"%string
  /\ tf_value (CustomTextField None None e) = "Start - 5 Dec 0987"%string.
Proof.
  intros s e.
  assert (Hs : slotOnDate s (Some (2024, 2, 29))).
  { split; [split; [split|] |]; vm_compute; try reflexivity;
      split; discriminate. }
  assert (He : slotOnDate e (Some (987, 12, 5))).
  { split; [split; [split|] |]; vm_compute; try reflexivity;
      split; discriminate. }
  split.
  - exact (proj1 (text_field_value None s e) _ _ Hs He).
  - exact (proj1 (text_field_value None None e) None _ I He).
Defined.

(** * Further properties of the component *)

(** ** The four branches of the click handler *)

Lemma handleChange_cases (w : Widget) (d : Dayjs) :
  exists p b,
    handleChange w (Some d) = [SetPickerValue (Some d); UpdateValue p; SetStartTurn b]
    /\ ((startTurn w = true /\ b = false /\ p = [Some d; None]
         /\ exists e, endDay w = Some e /\ Dayjs.valueOf e < Dayjs.valueOf d)
        \/ (startTurn w = true /\ b = false /\ p = [Some d; endDay w]
            /\ forall e, endDay w = Some e -> Dayjs.valueOf d <= Dayjs.valueOf e)
        \/ (startTurn w = false /\ b = false /\ p = [Some d; startDay w]
            /\ exists s, startDay w = Some s /\ Dayjs.valueOf d < Dayjs.valueOf s)
        \/ (startTurn w = false /\ b = true /\ p = [startDay w; Some d]
            /\ forall s, startDay w = Some s -> Dayjs.valueOf s <= Dayjs.valueOf d)).
Proof.
  destruct (startTurn w) eqn:Ht.
  - destruct (endDay w) as [e|] eqn:He.
    + destruct (Z.ltb_spec (Dayjs.valueOf e) (Dayjs.valueOf d)) as [Hlt|Hge].
      * exists [Some d; None], false. split.
        -- now apply handleChange_start_reverse with (e := e).
        -- left. eauto 6.
      * assert (Hk : forall e', endDay w = Some e' ->
                                Dayjs.valueOf d <= Dayjs.valueOf e') by (by_slot He).
        exists [Some d; endDay w], false. split.
        -- now apply handleChange_start_keep.
        -- right; left. rewrite He in *. auto.
    + assert (Hk : forall e', endDay w = Some e' ->
                              Dayjs.valueOf d <= Dayjs.valueOf e') by (by_slot He).
      exists [Some d; endDay w], false. split.
      * now apply handleChange_start_keep.
      * right; left. rewrite He in *. auto.
  - destruct (startDay w) as [s|] eqn:Hs.
    + destruct (Z.ltb_spec (Dayjs.valueOf d) (Dayjs.valueOf s)) as [Hlt|Hge].
      * exists [Some d; startDay w], false. split.
        -- rewrite Hs. now apply handleChange_end_reverse.
        -- right; right; left. rewrite Hs. eauto 6.
      * assert (Hk : forall s', startDay w = Some s' ->
                                Dayjs.valueOf s' <= Dayjs.valueOf d) by (by_slot Hs).
        exists [startDay w; Some d], true. split.
        -- now apply handleChange_end_keep.
        -- right; right; right. rewrite Hs in *. auto.
    + assert (Hk : forall s', startDay w = Some s' ->
                              Dayjs.valueOf s' <= Dayjs.valueOf d) by (by_slot Hs).
      exists [startDay w; Some d], true. split.
      * now apply handleChange_end_keep.
      * right; right; right. rewrite Hs in *. auto.
Qed.

(** X1: on the end turn, a click on a date that is not before the start
    (or with no start at all) keeps the start, stores the date as the end,
    reports that pair and returns the turn to the start. *)
Theorem end_turn_click_not_before_start (w : Widget) (d : Dayjs) :
  startTurn w = false ->
  (forall s, startDay w = Some s -> Dayjs.valueOf s <= Dayjs.valueOf d) ->
  selection (step w (Click (Some d))) = (startDay w, Some d)
  /\ startTurn (step w (Click (Some d))) = true
  /\ reported (step w (Click (Some d))) = reported w ++ [[startDay w; Some d]].
Proof.
  intros Ht Hle.
  destruct (step_click w d _ _ (handleChange_end_keep w d Ht Hle)) as (Hv & Hb & Hr).
  unfold selection, startDay at 1, endDay.
  now rewrite Hv, Hb, Hr, slot_pair0.
Qed.

Lemma end_turn_click_not_before_start_witness :
  let a := Dayjs.ofDate 2024 1 10 in
  let b := Dayjs.ofDate 2024 1 15 in
  selection (step (mkWidget [Some a; None] false None []) (Click (Some b)))
    = (Some a, Some b)
  /\ selection (step (mkWidget [] false None []) (Click (Some b))) = (None, Some b).
Proof.
  intros a b. split.
  - apply (end_turn_click_not_before_start (mkWidget [Some a; None] false None []) b).
    + reflexivity.
    + intros s [= <-]. vm_compute. discriminate.
  - apply (end_turn_click_not_before_start (mkWidget [] false None []) b).
    + reflexivity.
    + intros s Hs. discriminate Hs.
Defined.

(** What a click on a date leaves behind, read off the four branches. *)
Lemma click_outcome (w : Widget) (d : Dayjs) :
  List.length (value (step w (Click (Some d)))) = 2%nat
  /\ reported (step w (Click (Some d))) = reported w ++ [value (step w (Click (Some d)))]
  /\ (startTurn (step w (Click (Some d))) = false ->
      startDay (step w (Click (Some d))) = Some d)
  /\ (startTurn (step w (Click (Some d))) = true ->
      endDay (step w (Click (Some d))) = Some d
      /\ startDay (step w (Click (Some d))) = startDay w
      /\ startTurn w = false).
Proof.
  destruct (handleChange_cases w d) as (p & b & Hc & Hcase).
  destruct (step_click w d p b Hc) as (Hv & Hb & Hr).
  unfold startDay at 1 2, endDay at 1. rewrite Hv, Hb, Hr.
  destruct Hcase as [(Ht & -> & -> & _) | [(Ht & -> & -> & _)
                    | [(Ht & -> & -> & _) | (Ht & -> & -> & _)]]];
    repeat split; try discriminate; try reflexivity; try assumption.
  apply slot_pair0.
Qed.

(** X2: whatever the render, a click on a date makes exactly one report, of
    an array of two entries that becomes the value, and the turn it leaves
    tells where the date went: on the end turn the date is the new start;
    on the start turn it is the new end, the start is the one there was,
    and the click was made on the end turn. *)
Theorem click_places_date (w : Widget) (d : Dayjs) :
  List.length (value (step w (Click (Some d)))) = 2%nat
  /\ reported (step w (Click (Some d))) = reported w ++ [value (step w (Click (Some d)))]
  /\ (startTurn (step w (Click (Some d))) = false ->
      startDay (step w (Click (Some d))) = Some d)
  /\ (startTurn (step w (Click (Some d))) = true ->
      endDay (step w (Click (Some d))) = Some d
      /\ startDay (step w (Click (Some d))) = startDay w
      /\ startTurn w = false).
Proof. exact (click_outcome w d). Qed.

Lemma click_places_date_witness :
  let a := Dayjs.ofDate 2024 1 10 in
  let b := Dayjs.ofDate 2024 1 15 in
  startDay (step (mkWidget [None; Some b; Some a] true None []) (Click (Some a)))
    = Some a
  /\ endDay (step (mkWidget [Some a] false None []) (Click (Some b))) = Some b.
Proof.
  intros a b. split.
  - destruct (click_places_date (mkWidget [None; Some b; Some a] true None []) a)
      as (_ & _ & Hstart & _).
    apply Hstart. reflexivity.
  - destruct (click_places_date (mkWidget [Some a] false None []) b)
      as (_ & _ & _ & Hend).
    apply Hend. reflexivity.
Defined.

(** ** The picker position *)

Lemma picker_after_event (w : Widget) (ev : Event) :
  effective ev = true ->
  pickerValue (step w ev) = turnTarget (step w ev).
Proof.
  intros Hev. destruct ev as [[d|]|]; try discriminate Hev.
  - unfold step, rerender. rewrite click_changes_deps. reflexivity.
  - unfold step, rerender.
    destruct (same_deps w (handled w Clear)); reflexivity.
Qed.

(** X3: after a click on a date or a clear, the effect leaves the picker on
    the date of the new turn: the start on the start turn, the end on the
    end turn, whatever the handler stored. *)
Theorem picker_follows_turn (w : Widget) (ev : Event) :
  effective ev = true ->
  pickerValue (step w ev) = turnTarget (step w ev).
Proof. exact (picker_after_event w ev). Qed.

Lemma picker_follows_turn_witness :
  let a := Dayjs.ofDate 2024 1 10 in
  pickerValue (handled initial (Click (Some a))) = Some a
  /\ pickerValue (step initial (Click (Some a))) = None.
Proof.
  intros a. split.
  - reflexivity.
  - rewrite (picker_follows_turn initial (Click (Some a)) eq_refl). reflexivity.
Defined.

(** ** Renders that follow the empty widget *)





(** ** The log of reports *)

Lemma step_report_count (w : Widget) (ev : Event) :
  List.length (reported (step w ev))
  = (List.length (reported w) + if effective ev then 1 else 0)%nat.
Proof.
  destruct ev as [[d|]|].
  - destruct (click_outcome w d) as (_ & -> & _).
    rewrite length_app. reflexivity.
  - rewrite step_null_click. simpl. lia.
  - rewrite step_reported. simpl. rewrite length_app. reflexivity.
Qed.

(** X5: over any sequence of events, [onChange] is called once for each
    click on a date and once for each clear, also when nothing was
    selected, and never for a click without a date; earlier reports stay
    in place. *)
Theorem one_report_per_effective_event (evs : list Event) (w : Widget) :
  List.length (reported (run w evs))
  = (List.length (reported w) + List.length (filter effective evs))%nat
  /\ firstn (List.length (reported w)) (reported (run w evs)) = reported w.
Proof.
  revert w. induction evs as [|ev evs IH]; intros w.
  - simpl. split; [lia | apply firstn_all].
  - cbn [run fold_left filter]. fold (run (step w ev) evs).
    destruct (IH (step w ev)) as (Hlen & Hpre).
    pose proof (step_report_count w ev) as Hstep.
    split.
    + rewrite Hlen, Hstep. destruct (effective ev); simpl; lia.
    + assert (Hw : firstn (List.length (reported w)) (reported (step w ev))
                   = reported w).
      { destruct ev as [[d|]|].
        - destruct (click_outcome w d) as (_ & -> & _).
          rewrite firstn_app, Nat.sub_diag, firstn_all. simpl. apply app_nil_r.
        - rewrite step_null_click. apply firstn_all.
        - rewrite step_reported. simpl.
          rewrite firstn_app, Nat.sub_diag, firstn_all. simpl. apply app_nil_r. }
      transitivity (firstn (List.length (reported w))
                      (firstn (List.length (reported (step w ev)))
                         (reported (run (step w ev) evs)))).
      * rewrite firstn_firstn. f_equal. rewrite Hstep. lia.
      * rewrite Hpre. exact Hw.
Qed.

(** ** Clearing starts over *)

Lemma apply_calls_relog (r : list RangeValue) (cs : list Call) (w : Widget) :
  apply_calls (relog r w) cs = relog r (apply_calls w cs).
Proof.
  revert w. induction cs as [|c cs IH]; intros w.
  - reflexivity.
  - unfold apply_calls in *. cbn [fold_left]. rewrite <- IH. f_equal.
    destruct c; unfold relog; simpl; try reflexivity.
    now rewrite app_assoc.
Qed.

Lemma step_relog (r : list RangeValue) (w : Widget) (ev : Event) :
  step (relog r w) ev = relog r (step w ev).
Proof.
  unfold step, handled.
  assert (Hh : handler (relog r w) ev = handler w ev)
    by (destruct ev as [[d|]|]; reflexivity).
  rewrite Hh, apply_calls_relog. unfold rerender.
  change (same_deps (relog r w) (relog r (apply_calls w (handler w ev))))
    with (same_deps w (apply_calls w (handler w ev))).
  destruct (same_deps w (apply_calls w (handler w ev))); [reflexivity|].
  apply apply_calls_relog.
Qed.

Lemma run_relog (r : list RangeValue) (evs : list Event) (w : Widget) :
  run (relog r w) evs = relog r (run w evs).
Proof.
  revert w. induction evs as [|ev evs IH]; intros w.
  - reflexivity.
  - cbn [run fold_left]. rewrite step_relog. apply IH.
Qed.

(** X6: after a clear the widget behaves as the empty widget it started
    as: whatever the render before the clear, the same events lead to the
    same value, turn and picker position as from the empty widget, and to
    the same reports after those made up to the clear. *)
Theorem clear_starts_over (w : Widget) (evs : list Event) :
  value (run (step w Clear) evs) = value (run initial evs)
  /\ startTurn (run (step w Clear) evs) = startTurn (run initial evs)
  /\ pickerValue (run (step w Clear) evs) = pickerValue (run initial evs)
  /\ reported (run (step w Clear) evs)
     = reported w ++ [None; None] :: reported (run initial evs).
Proof.
  assert (Hc : step w Clear = relog (reported w ++ [[None; None]]) initial).
  { unfold step, rerender.
    destruct (same_deps w (handled w Clear));
      unfold relog; simpl; now rewrite app_nil_r. }
  rewrite Hc, run_relog. unfold relog. simpl.
  repeat split. now rewrite <- app_assoc.
Qed.

(** ** Cells and the clear button without a selection *)

(** X7: [Day] draws the plain cell, with no background, no rounded corner
    and no highlight, even on a Sunday or a Saturday, exactly when both
    dates are absent; the text field draws its clear button exactly in the
    other case. *)
Theorem plain_cells_iff_no_selection (error : option string) (d : Dayjs)
    (s e : option Dayjs) :
  (Day d s e = PlainPickersDay d <-> s = None /\ e = None)
  /\ (clearButton (CustomTextField error s e) = true <-> Day d s e <> PlainPickersDay d)
  /\ (s = None /\ e = None ->
      inRangeStyled (Day d s e) = false
      /\ roundedLeft (Day d s e) = false /\ roundedRight (Day d s e) = false
      /\ endpointHighlighted (Day d s e) = false).
Proof.
  split; [|split].
  - destruct s as [a|], e as [b|]; unfold Day; simpl; split; intros H;
      try discriminate H; try (destruct H; discriminate); auto.
  - destruct s as [a|], e as [b|]; unfold Day; simpl; split; intros H;
      try discriminate; try reflexivity.
    exfalso. now apply H.
  - intros [-> ->]. unfold Day. simpl. repeat split.
Qed.

(** ** Days between, on and outside the bounds *)

Lemma dayNumber_lt (a b : Dayjs) :
  Dayjs.dayNumber a < Dayjs.dayNumber b -> Dayjs.valueOf a < Dayjs.valueOf b.
Proof.
  intros H. destruct (Z.lt_ge_cases (Dayjs.valueOf a) (Dayjs.valueOf b)) as [|Hge].
  - assumption.
  - apply dayNumber_mono in Hge. lia.
Qed.

(** The bounds [Day] works on are the earlier and the later date in one
    order or the other. *)
Lemma bounds_either_order (start end_ : Dayjs) :
  (earlier start end_ = start /\ later start end_ = end_)
  \/ (earlier start end_ = end_ /\ later start end_ = start).
Proof.
  unfold earlier, later.
  destruct (Dayjs.valueOf start <=? Dayjs.valueOf end_); auto.
Qed.

(** X8: a cell whose calendar day lies strictly between the calendar days
    of the two bounds has the in-range background, whatever the times of
    day and the order of the pair, and is neither marked first or last nor
    highlighted as an endpoint. *)
Theorem interior_days (d : Dayjs) (s e : option Dayjs) (lo hi : Dayjs) :
  range_bounds s e = Some (lo, hi) ->
  Dayjs.dayNumber lo < Dayjs.dayNumber d < Dayjs.dayNumber hi ->
  inRangeStyled (Day d s e) = true
  /\ markedFirst (Day d s e) = false
  /\ markedLast (Day d s e) = false
  /\ endpointHighlighted (Day d s e) = false.
Proof.
  intros Hb [Hlo Hhi].
  destruct (Day_range d s e lo hi Hb)
    as (start & end_ & _ & _ & El & Eh & HI & HF & HL & HH & _).
  assert (HnF : Dayjs.isSameDay d start = false /\ Dayjs.isSameDay d end_ = false).
  { split; apply not_true_is_false; rewrite isSameDay_iff;
      destruct (bounds_either_order start end_) as [[E1 E2]|[E1 E2]];
      rewrite E1 in El; rewrite E2 in Eh; subst lo hi; lia. }
  destruct HnF as [HnF HnL].
  rewrite HH, HF, HL, HnF, HnL. repeat split.
  rewrite HI. apply isBetween_iff. rewrite <- El, <- Eh.
  apply dayNumber_lt in Hlo, Hhi. lia.
Qed.

Lemma interior_days_witness :
  let s := Some (Dayjs.mk (Dayjs.valueOf (Dayjs.ofDate 2024 1 10) + 37800000)) in
  let e := Some (Dayjs.ofDate 2024 1 15) in
  inRangeStyled (Day (Dayjs.ofDate 2024 1 12) s e) = true
  /\ endpointHighlighted (Day (Dayjs.ofDate 2024 1 12) e s) = false.
Proof.
  intros s e. split.
  - apply (interior_days (Dayjs.ofDate 2024 1 12) s e
             (Dayjs.mk (Dayjs.valueOf (Dayjs.ofDate 2024 1 10) + 37800000))
             (Dayjs.ofDate 2024 1 15)).
    + reflexivity.
    + vm_compute. split; reflexivity.
  - apply (interior_days (Dayjs.ofDate 2024 1 12) e s
             (Dayjs.mk (Dayjs.valueOf (Dayjs.ofDate 2024 1 10) + 37800000))
             (Dayjs.ofDate 2024 1 15)).
    + reflexivity.
    + vm_compute. split; reflexivity.
Defined.

(** X9: a cell whose calendar day is before the calendar day of the earlier
    bound or after that of the later bound gets no background, no mark and
    no highlight; only the week-day rounding can apply to it. *)
Theorem outside_days (d : Dayjs) (s e : option Dayjs) (lo hi : Dayjs) :
  range_bounds s e = Some (lo, hi) ->
  Dayjs.dayNumber d < Dayjs.dayNumber lo \/ Dayjs.dayNumber hi < Dayjs.dayNumber d ->
  inRangeStyled (Day d s e) = false
  /\ markedFirst (Day d s e) = false
  /\ markedLast (Day d s e) = false
  /\ endpointHighlighted (Day d s e) = false
  /\ roundedLeft (Day d s e) = (Dayjs.day d =? 0)
  /\ roundedRight (Day d s e) = (Dayjs.day d =? 6).
Proof.
  intros Hb Hout.
  destruct (Day_range d s e lo hi Hb)
    as (start & end_ & _ & _ & El & Eh & HI & HF & HL & HH & HRl & HRr).
  assert (Hle : Dayjs.dayNumber lo <= Dayjs.dayNumber hi).
  { apply dayNumber_mono. subst lo hi. unfold earlier, later.
    destruct (Z.leb_spec (Dayjs.valueOf start) (Dayjs.valueOf end_)); lia. }
  assert (HnF : Dayjs.isSameDay d start = false /\ Dayjs.isSameDay d end_ = false).
  { split; apply not_true_is_false; rewrite isSameDay_iff;
      destruct (bounds_either_order start end_) as [[E1 E2]|[E1 E2]];
      rewrite E1 in El; rewrite E2 in Eh; subst lo hi; lia. }
  destruct HnF as [HnF HnL].
  rewrite HH, HF, HL, HRl, HRr, HnF, HnL. repeat split.
  rewrite HI. apply not_true_is_false. rewrite isBetween_iff, <- El, <- Eh.
  intros [H1 H2]. apply dayNumber_mono in H1, H2. lia.
Qed.

Lemma outside_days_witness :
  let s := Some (Dayjs.ofDate 2024 1 10) in
  let e := Some (Dayjs.ofDate 2024 1 15) in
  inRangeStyled (Day (Dayjs.ofDate 2024 1 16) s e) = false
  /\ roundedLeft (Day (Dayjs.ofDate 2024 1 7) s e) = true.
Proof.
  intros s e.
  assert (Hb : range_bounds s e
               = Some (Dayjs.ofDate 2024 1 10, Dayjs.ofDate 2024 1 15))
    by reflexivity.
  split.
  - apply (outside_days (Dayjs.ofDate 2024 1 16) s e _ _ Hb).
    right. vm_compute. reflexivity.
  - destruct (outside_days (Dayjs.ofDate 2024 1 7) s e _ _ Hb)
      as (_ & _ & _ & _ & Hl & _).
    + left. vm_compute. reflexivity.
    + rewrite Hl. reflexivity.
Defined.

(** X10: exchanging the two dates of the pair keeps the in-range background
    and the endpoint highlight of every cell and exchanges its first and
    last marks, and with them the left and right rounding of a cell that is
    neither a Sunday nor a Saturday. *)
Theorem swapped_pair (d : Dayjs) (s e : option Dayjs) :
  inRangeStyled (Day d e s) = inRangeStyled (Day d s e)
  /\ endpointHighlighted (Day d e s) = endpointHighlighted (Day d s e)
  /\ markedFirst (Day d e s) = markedLast (Day d s e)
  /\ markedLast (Day d e s) = markedFirst (Day d s e)
  /\ (Dayjs.day d <> 0 -> Dayjs.day d <> 6 ->
      roundedLeft (Day d e s) = roundedRight (Day d s e)
      /\ roundedRight (Day d e s) = roundedLeft (Day d s e)).
Proof.
  destruct (range_bounds s e) as [[lo hi]|] eqn:Hb.
  - assert (Hb' : range_bounds e s = Some (lo, hi)).
    { destruct s as [a|], e as [b|]; simpl in *; try assumption.
      injection Hb as <- <-. unfold earlier, later.
      destruct (Z.leb_spec (Dayjs.valueOf a) (Dayjs.valueOf b)),
               (Z.leb_spec (Dayjs.valueOf b) (Dayjs.valueOf a));
        try reflexivity; try lia.
      assert (a = b) as -> by (destruct a, b; simpl in *; f_equal; lia).
      reflexivity. }
    destruct (Day_range d s e lo hi Hb)
      as (st & en & Hs & He & _ & _ & HI & HF & HL & HH & HRl & HRr).
    destruct (Day_range d e s lo hi Hb')
      as (st' & en' & Hs' & He' & _ & _ & HI' & HF' & HL' & HH' & HRl' & HRr').
    rewrite Hs in He'. rewrite He in Hs'.
    injection He' as <-. injection Hs' as <-.
    rewrite HI, HF, HL, HH, HRl, HRr, HI', HF', HL', HH', HRl', HRr'.
    split; [|split; [|split; [|split]]]; try reflexivity.
    + unfold Dayjs.isBetween.
      destruct (Dayjs.isBefore d en), (Dayjs.isAfter d st),
               (Dayjs.isAfter d en), (Dayjs.isBefore d st); reflexivity.
    + apply orb_comm.
    + intros Hsun Hsat. apply Z.eqb_neq in Hsun, Hsat.
      now rewrite Hsun, Hsat.
  - destruct s, e; try discriminate Hb.
    split; [|split; [|split; [|split]]]; try reflexivity.
    intros _ _. split; reflexivity.
Qed.

Lemma swapped_pair_witness :
  let a := Some (Dayjs.ofDate 2024 1 10) in
  let b := Some (Dayjs.ofDate 2024 1 15) in
  roundedLeft (Day (Dayjs.ofDate 2024 1 10) b a) = false
  /\ roundedRight (Day (Dayjs.ofDate 2024 1 10) b a) = true.
Proof.
  intros a b.
  destruct (swapped_pair (Dayjs.ofDate 2024 1 10) a b) as (_ & _ & _ & _ & H).
  destruct H as [Hl Hr].
  - vm_compute. discriminate.
  - vm_compute. discriminate.
  - rewrite Hl, Hr. split; reflexivity.
Defined.

(** X11: with a single date in the selection, in either slot, that date is
    both bounds: a cell is marked first and last together, exactly on the
    calendar day of the date, and has the in-range background exactly when
    it is the very instant of the date. *)
Theorem lone_endpoint (d a : Dayjs) (s e : option Dayjs) :
  (s = Some a /\ e = None) \/ (s = None /\ e = Some a) ->
  (inRangeStyled (Day d s e) = true <-> Dayjs.valueOf d = Dayjs.valueOf a)
  /\ (markedFirst (Day d s e) = true <-> Dayjs.dayNumber d = Dayjs.dayNumber a)
  /\ markedLast (Day d s e) = markedFirst (Day d s e)
  /\ endpointHighlighted (Day d s e) = markedFirst (Day d s e).
Proof.
  intros Hlone.
  assert (Hb : range_bounds s e = Some (a, a))
    by (destruct Hlone as [[-> ->]|[-> ->]]; reflexivity).
  destruct (Day_range d s e a a Hb)
    as (st & en & Hs & He & _ & _ & HI & HF & HL & HH & _).
  assert (st = a /\ en = a) as [-> ->].
  { destruct Hlone as [[-> ->]|[-> ->]]; simpl in Hs, He;
      injection Hs as <-; injection He as <-; auto. }
  rewrite HI, HF, HL, HH, orb_diag, isSameDay_iff, isBetween_iff.
  unfold earlier, later. rewrite Z.leb_refl.
  repeat split; lia.
Qed.

Lemma lone_endpoint_witness :
  let a := Dayjs.mk (Dayjs.valueOf (Dayjs.ofDate 2024 1 10) + 37800000) in
  markedFirst (Day (Dayjs.ofDate 2024 1 10) None (Some a)) = true
  /\ inRangeStyled (Day (Dayjs.ofDate 2024 1 10) None (Some a)) = false.
Proof.
  intros a.
  destruct (lone_endpoint (Dayjs.ofDate 2024 1 10) a None (Some a)) as (HI & HF & _).
  - right. split; reflexivity.
  - split.
    + apply HF. reflexivity.
    + apply not_true_is_false. intros H. apply HI in H. vm_compute in H. discriminate.
Defined.

(** ** The text of the field *)

(** A formatted number starts with a digit or a minus sign. *)
Lemma String_of_head (n : Z) :
  exists c rest, Dayjs.String_of n = String c rest
                 /\ c <> "S"%char /\ c <> "E"%char.
Proof.
  unfold Dayjs.String_of.
  destruct (Z.to_int n) as [u|u]; simpl.
  - destruct u; simpl; eexists _, _; (split; [reflexivity | split; discriminate]).
  - eexists _, _. split; [reflexivity | split; discriminate].
Qed.

Lemma format_head (a : Dayjs) :
  exists c rest, Dayjs.format_D_MMM_YYYY a = String c rest
                 /\ c <> "S"%char /\ c <> "E"%char.
Proof.
  unfold Dayjs.format_D_MMM_YYYY.
  destruct (String_of_head (Dayjs.date a)) as (c & rest & -> & Hc).
  simpl. eauto.
Qed.

(** X12: the field shows its placeholder text, Start - End, exactly when
    both dates are absent: a formatted date is never mistaken for either
    word. *)
Theorem placeholder_text_iff_no_selection (error : option string)
    (s e : option Dayjs) :
  tf_value (CustomTextField error s e) = placeholder (CustomTextField error s e)
  <-> s = None /\ e = None.
Proof.
  split.
  - destruct s as [a|]; simpl.
    + destruct (format_head a) as (c & rest & -> & HS & _).
      simpl. intros H. injection H as H _. now elim HS.
    + destruct e as [b|]; simpl; [|auto].
      destruct (format_head b) as (c & rest & -> & _ & HE).
      intros H. injection H as H _. now elim HE.
  - intros [-> ->]. reflexivity.
Qed.

(** X13: an error string that is not empty puts the field in its error
    state with the string after an asterisk and a space as helper text; no
    error, or the empty string, leaves the field out of its error state
    with the error itself as helper text.  The error changes neither the
    text shown nor the clear button. *)
Theorem error_helper_text (error : option string) (s e : option Dayjs) :
  (forall msg, error = Some msg -> msg <> EmptyString ->
     tf_error (CustomTextField error s e) = true
     /\ helperText (CustomTextField error s e) = Some ("* " ++ msg)%string)
  /\ (error = None \/ error = Some EmptyString ->
      tf_error (CustomTextField error s e) = false
      /\ helperText (CustomTextField error s e) = error)
  /\ tf_value (CustomTextField error s e) = tf_value (CustomTextField None s e)
  /\ clearButton (CustomTextField error s e) = clearButton (CustomTextField None s e).
Proof.
  split; [|split; [|split]].
  - intros msg -> Hne. destruct msg; [now elim Hne|]. split; reflexivity.
  - intros [-> | ->]; split; reflexivity.
  - reflexivity.
  - reflexivity.
Qed.

Lemma plain_cells_iff_no_selection_witness :
  inRangeStyled (Day (Dayjs.ofDate 2024 1 14) None None) = false
  /\ roundedLeft (Day (Dayjs.ofDate 2024 1 14) None None) = false
  /\ clearButton (CustomTextField None None None) = false.
Proof.
  destruct (plain_cells_iff_no_selection None (Dayjs.ofDate 2024 1 14) None None)
    as (_ & Hclear & Hplain).
  destruct (Hplain (conj eq_refl eq_refl)) as (HI & HL & _).
  split; [exact HI | split; [exact HL |]].
  apply not_true_is_false. intros H. apply Hclear in H. now apply H.
Defined.

Lemma error_helper_text_witness :
  helperText (CustomTextField (Some "Required"%string) None None)
    = Some "* Required"%string
  /\ tf_error (CustomTextField (Some EmptyString) None None) = false.
Proof.
  destruct (error_helper_text (Some "Required"%string) None None) as (Hmsg & _).
  destruct (error_helper_text (Some EmptyString) None None) as (_ & Hnone & _).
  split.
  - apply (Hmsg "Required"%string eq_refl). discriminate.
  - apply Hnone. right. reflexivity.
Defined.

(** ** Any mounted value *)





(** ** Clicks that keep going back *)

Lemma last_cons_default (x s : Dayjs) (l : list Dayjs) :
  last (x :: l) s = last l x.
Proof.
  revert x s. induction l as [|y l IH]; intros x s.
  - reflexivity.
  - change (last (x :: y :: l) s) with (last (y :: l) s).
    rewrite (IH y s). symmetry. apply (IH y x).
Qed.

Lemma descending_clicks (l : list Dayjs) :
  forall (w : Widget) (s d : Dayjs),
    startTurn w = false ->
    startDay w = Some s ->
    descending s (l ++ [d]) ->
    selection (run w (clicks (l ++ [d]))) = (Some d, Some (last l s))
    /\ startTurn (run w (clicks (l ++ [d]))) = false.
Proof.
  induction l as [|x l IH]; intros w s d Ht Hs Hdesc.
  - destruct Hdesc as [Hlt _]. cbn [app clicks map run fold_left last].
    destruct (step_click w d _ _ (handleChange_end_reverse w d s Ht Hs Hlt))
      as (Hv & Hb & _).
    unfold selection, startDay, endDay. rewrite Hv, Hb. auto.
  - destruct Hdesc as [Hlt Hdesc]. rewrite last_cons_default.
    change (run w (clicks ((x :: l) ++ [d])))
      with (run (step w (Click (Some x))) (clicks (l ++ [d]))).
    destruct (step_click w x _ _ (handleChange_end_reverse w x s Ht Hs Hlt))
      as (Hv & Hb & _).
    apply IH; try assumption.
    unfold startDay. now rewrite Hv.
Qed.

(** X15: on the end turn, clicks that each go strictly before the one
    before them never hand the turn back: after any number of them the
    selection is the last date clicked followed by the date that was the
    start just before it, and the turn is still on the end. *)
Theorem descending_clicks_stay_on_end (w : Widget) (s d : Dayjs) (l : list Dayjs) :
  startTurn w = false ->
  startDay w = Some s ->
  descending s (l ++ [d]) ->
  selection (run w (clicks (l ++ [d]))) = (Some d, Some (last l s))
  /\ startTurn (run w (clicks (l ++ [d]))) = false.
Proof. apply descending_clicks. Qed.

Lemma descending_clicks_stay_on_end_witness :
  let a := Dayjs.ofDate 2024 1 20 in
  let b := Dayjs.ofDate 2024 1 15 in
  let c := Dayjs.ofDate 2024 1 10 in
  let d := Dayjs.ofDate 2024 1 5 in
  selection (run (step initial (Click (Some a))) (clicks [b; c; d]))
    = (Some d, Some c)
  /\ startTurn (run (step initial (Click (Some a))) (clicks [b; c; d])) = false.
Proof.
  intros a b c d.
  apply (descending_clicks_stay_on_end (step initial (Click (Some a))) a d [b; c]).
  - reflexivity.
  - reflexivity.
  - vm_compute. repeat split.
Defined.

(** X16: after a second click that went before the first, the third click,
    if not before the second, becomes the end in place of the first date,
    also when it is before that first date, and the turn returns to the
    start. *)
Theorem third_click_after_reversal (a b c : Dayjs) :
  Dayjs.valueOf b < Dayjs.valueOf a ->
  Dayjs.valueOf b <= Dayjs.valueOf c ->
  selection (run initial (clicks [a; b])) = (Some b, Some a)
  /\ selection (run initial (clicks [a; b; c])) = (Some b, Some c)
  /\ startTurn (run initial (clicks [a; b; c])) = true.
Proof.
  intros Hba Hbc. cbn [clicks map run fold_left].
  destruct (first_click a) as (Hv1 & Hb1 & _).
  set (w1 := step initial (Click (Some a))) in *.
  assert (Hs1 : startDay w1 = Some a) by (unfold startDay; now rewrite Hv1).
  destruct (step_click w1 b _ _ (handleChange_end_reverse w1 b a Hb1 Hs1 Hba))
    as (Hv2 & Hb2 & _).
  set (w2 := step w1 (Click (Some b))) in *.
  assert (Hs2 : startDay w2 = Some b) by (unfold startDay; now rewrite Hv2).
  assert (Hk : forall s, startDay w2 = Some s -> Dayjs.valueOf s <= Dayjs.valueOf c)
    by (by_slot Hs2).
  destruct (step_click w2 c _ _ (handleChange_end_keep w2 c Hb2 Hk)) as (Hv3 & Hb3 & _).
  unfold selection, startDay at 1 2, endDay. rewrite Hv2, Hv3, Hb3, Hs2. auto.
Qed.

Lemma third_click_after_reversal_witness :
  let a := Dayjs.ofDate 2024 1 20 in
  let b := Dayjs.ofDate 2024 1 10 in
  let c := Dayjs.ofDate 2024 1 15 in
  selection (run initial (clicks [a; b; c])) = (Some b, Some c)
  /\ startTurn (run initial (clicks [a; b; c])) = true.
Proof.
  intros a b c.
  destruct (third_click_after_reversal a b c) as (_ & H2 & H3).
  - vm_compute. reflexivity.
  - vm_compute. discriminate.
  - split; assumption.
Defined.
